(** * pixivapi.client: a shallow embedding of [Client] and its contract

    The Python class [pixivapi.client.Client] is modelled as a record of its
    instance variables, threaded through an exception-and-state monad.  The
    collaborators the client calls into ([requests.Session], the JSON decoder,
    Python's string formatting) and the sibling modules of the package that
    the client imports ([pixivapi.common], [pixivapi.enums]) are gathered in
    one interface, [Env], so that every method below reads like its source
    and still evaluates once an [Env] is supplied. *)

From stdpp Require Import base option list strings gmap pretty.
From Stdlib Require Import ZArith Lia Ascii.

Local Set Warnings "-register-all".
Local Open Scope Z_scope.
Local Open Scope string_scope.
Local Open Scope list_scope.

(** ** Decoded JSON and the Python operations applied to it *)

(** What [Response.json()] hands back: [None], [bool], [int], [float], [str],
    [list] and [dict] (insertion ordered, unique keys).  A float is carried
    by its literal, no arithmetic is done on it. *)
Inductive JSON : Type :=
| JNull
| JBool (b : bool)
| JInt (z : Z)
| JFloat (literal : string)
| JStr (s : string)
| JArr (items : list JSON)
| JObj (members : list (string * JSON)).

(** The exceptions the client raises, catches or lets through. *)
Inductive Exception : Type :=
| RequestException
| JSONDecodeError
| KeyError (key : string)
| TypeError
| ValueError
| LoginError
| BadApiResponse (args : list string)
| AuthenticationRequired.

Global Instance Exception_eq_dec : EqDecision Exception.
Proof. solve_decision. Defined.

(** Pure code that may raise. *)
Definition Exc (A : Type) : Type := Exception + A.

Definition exc_bind {A B} (m : Exc A) (k : A -> Exc B) : Exc B :=
  match m with
  | inl e => inl e
  | inr a => k a
  end.

Fixpoint exc_map {A B} (f : A -> Exc B) (l : list A) : Exc (list B) :=
  match l with
  | [] => inr []
  | x :: l' =>
      exc_bind (f x) (fun y => exc_bind (exc_map f l') (fun ys => inr (y :: ys)))
  end.

(** [d[k]] on an association list: first binding of [k]. *)
Fixpoint assoc {V} (k : string) (d : list (string * V)) : option V :=
  match d with
  | [] => None
  | (k', v) :: d' => if String.eqb k k' then Some v else assoc k d'
  end.

(** [d[k] = v] on a dict: overwrite in place, else append. *)
Fixpoint dict_set {V} (k : string) (v : V) (d : list (string * V))
  : list (string * V) :=
  match d with
  | [] => [(k, v)]
  | (k', v') :: d' =>
      if String.eqb k k' then (k, v) :: d' else (k', v') :: dict_set k v d'
  end.

(** [{**d, **extra}]. *)
Definition dict_merge {V} (d extra : list (string * V)) : list (string * V) :=
  fold_left (fun acc kv => dict_set (fst kv) (snd kv) acc) extra d.

(** [j[key]] for a string key: [KeyError] on a dict without the key,
    [TypeError] on anything that is not a dict. *)
Definition getitem (j : JSON) (key : string) : Exc JSON :=
  match j with
  | JObj members =>
      match assoc key members with
      | Some v => inr v
      | None => inl (KeyError key)
      end
  | _ => inl TypeError
  end.

(** [for x in j]: a list yields its items, a dict its keys, a string its
    characters; the other values are not iterable. *)
Definition chars (s : string) : list JSON :=
  map (fun c => JStr (String c EmptyString)) (String.list_ascii_of_string s).

Definition iter (j : JSON) : Exc (list JSON) :=
  match j with
  | JArr items => inr items
  | JObj members => inr (map (fun kv => JStr (fst kv)) members)
  | JStr s => inr (chars s)
  | _ => inl TypeError
  end.

(** [**j] in a call: only a mapping can be spread into keyword arguments. *)
Definition spread (j : JSON) : Exc (list (string * JSON)) :=
  match j with
  | JObj members => inr members
  | _ => inl TypeError
  end.

(** [str(j)] as an f-string field renders it.  Scalars are rendered here; the
    [repr] of floats, lists and dicts is left to the caller ([py_repr]). *)
Definition str_with (py_repr : JSON -> string) (j : JSON) : string :=
  match j with
  | JStr s => s
  | JNull => "None"
  | JBool true => "True"
  | JBool false => "False"
  | JInt z => pretty z
  | _ => py_repr j
  end.

(** ** What is handed to [requests] *)

(** A value placed in a [params=] or [data=] dict by the client. *)
Inductive Arg : Type :=
| ANone
| AStr (s : string)
| AInt (z : Z).

(** A dict value: one [Arg], or a tuple/list of them. *)
Inductive Param : Type :=
| One (a : Arg)
| Seq (items : list Arg).

Definition Params : Type := list (string * Param).

(** The keyword arguments of one [Session.request(...)] call, which is what
    a transport mock records. *)
Record Call : Type := mkCall {
  call_method : string;
  call_url : string;
  call_params : option Params;
  call_headers : option (list (string * string));
  call_data : option Params;
}.

Record Response : Type := mkResponse {
  status_code : Z;
  text : string;
}.

(** [Session.request] either raises a [RequestException] or returns. *)
Inductive Outcome : Type :=
| Fails
| Replies (r : Response).

(** [requests.structures.CaseInsensitiveDict]: entries are stored under the
    lower-cased key, next to the key as last written. *)
Definition lower_ascii (c : ascii) : ascii :=
  let n := N_of_ascii c in
  if ((65 <=? n) && (n <=? 90))%N then ascii_of_N (n + 32) else c.

Fixpoint lower (s : string) : string :=
  match s with
  | EmptyString => EmptyString
  | String c s' => String (lower_ascii c) (lower s')
  end.

Definition header_set (k v : string) (h : gmap string (string * string))
  : gmap string (string * string) :=
  <[lower k := (k, v)]> h.

Definition header_get (k : string) (h : gmap string (string * string))
  : option string :=
  snd <$> h !! lower k.

(** [headers.update(d)]. *)
Definition headers_update (d : list (string * string))
    (h : gmap string (string * string)) : gmap string (string * string) :=
  fold_left (fun acc kv => header_set (fst kv) (snd kv) acc) d h.

(** [requests.Session]: its default headers, and the calls it was asked to
    make so far, oldest first. *)
Record Session : Type := mkSession {
  headers : gmap string (string * string);
  calls : list Call;
}.

(** How [requests] turns a [params=] dict into the query of the outgoing
    request.  [sessions.merge_setting] drops the keys whose value is [None];
    [models.RequestEncodingMixin._encode_params] then emits one pair per
    element that is not [None], a scalar counting as a one-element list. *)
Definition is_None (p : Param) : bool :=
  match p with
  | One ANone => true
  | _ => false
  end.

Definition merge_setting (request_setting : option Params) : Params :=
  match request_setting with
  | None => []
  | Some d => List.filter (fun kv => negb (is_None (snd kv))) d
  end.

Definition encode_arg (k : string) (a : Arg) : list (string * string) :=
  match a with
  | ANone => []
  | AStr s => [(k, s)]
  | AInt z => [(k, pretty z)]
  end.

Definition _encode_params (d : Params) : list (string * string) :=
  flat_map (fun kv =>
    match snd kv with
    | One a => encode_arg (fst kv) a
    | Seq items => flat_map (encode_arg (fst kv)) items
    end) d.

(** The query pairs of the outgoing request, before percent-encoding. *)
Definition query (c : Call) : list (string * string) :=
  _encode_params (merge_setting (call_params c)).

(** The form fields of the outgoing request body. *)
Definition form (c : Call) : list (string * string) :=
  match call_data c with
  | None => []
  | Some d => _encode_params d
  end.

(** ** Values the endpoint methods return *)

(** A member of one of the [pixivapi.enums] classes, seen through the only
    attribute the client reads. *)
Record Enum : Type := mkEnum { value : Arg }.

(** The address of a [Client] object: what [client=self] stores. *)
Definition Ref : Type := nat.

(** A keyword argument given to a model constructor. *)
Inductive KwArg : Type :=
| KJson (j : JSON)
| KClient (self : Ref).

(** Modelled from the spec: [pixivapi.common.Struct] is not among the
    sources; the spec calls it a permissive attribute-access wrapper over an
    arbitrary JSON object, so an instance is the wrapped value. *)
Inductive Struct : Type :=
| mkStruct (j : JSON).

(** Modelled from the spec: [pixivapi.models] is not among the sources; a
    model instance wraps the fields it was constructed from, so it is
    represented by the keyword arguments of its constructor call. *)
Inductive Object : Type :=
| OJson (j : JSON)
| OIllustration (kwargs : list (string * KwArg))
| OComment (kwargs : list (string * KwArg))
| OStruct (s : Struct)
| OEnum (e : Enum)
| OList (items : list Object)
| ODict (members : list (string * Object)).

(** The call [Model] with [**j] and [client=self]: a second value for
    [client] is a [TypeError]. *)
Definition kwargs_with_client (j : JSON) (self : Ref)
  : Exc (list (string * KwArg)) :=
  exc_bind (spread j) (fun members =>
    match assoc "client" members with
    | Some _ => inl TypeError
    | None =>
        inr (map (fun kv => (fst kv, KJson (snd kv))) members
             ++ [("client", KClient self)])
    end).

(** The call [Model] with [**j] alone. *)
Definition kwargs_only (j : JSON) : Exc (list (string * KwArg)) :=
  exc_bind (spread j) (fun members =>
    inr (map (fun kv => (fst kv, KJson (snd kv))) members)).

(** The back-reference a model instance holds, if it was given one. *)
Definition client_of (kwargs : list (string * KwArg)) : option Ref :=
  match assoc "client" kwargs with
  | Some (KClient self) => Some self
  | _ => None
  end.

(** ** The collaborators of the client *)

Class Env : Type := {
  (** [requests.Session.request], given the session as it is at the call. *)
  session_request : Session -> Call -> Outcome;
  (** The headers a new [requests.Session] starts with. *)
  default_headers : list (string * string);
  (** [Response.json()] on a body; [None] stands for [JSONDecodeError]. *)
  json_loads : string -> option JSON;
  (** No JSON document is empty. *)
  json_loads_empty : json_loads "" = None;
  (** [repr] of floats, lists and dicts. *)
  py_repr : JSON -> string;
  (** [pixivapi.common.HEADERS]. *)
  HEADERS : list (string * string);
  (** [pixivapi.common.format_bool]. *)
  format_bool : bool -> string;
  (** [Visibility(value)]: the member with that value, or [ValueError]. *)
  Visibility : JSON -> option Enum;
}.

(** ** The client object and the monad its methods run in *)

(** The instance variables of [Client]; [JNull] is Python's [None]. *)
Record Client : Type := mkClient {
  language : string;
  client_id : string;
  client_secret : string;
  account : option Struct;
  access_token : JSON;
  refresh_token : JSON;
  session : Session;
}.

(** A method body: it runs on [self], may mutate it, and returns or raises.
    Mutations made before a [raise] stay. *)
Definition M (A : Type) : Type := Client -> Exc A * Client.

Definition ret {A} (a : A) : M A := fun self => (inr a, self).

Definition raise {A} (e : Exception) : M A := fun self => (inl e, self).

Definition bind {A B} (m : M A) (k : A -> M B) : M B :=
  fun self =>
    match m self with
    | (inl e, self') => (inl e, self')
    | (inr a, self') => k a self'
    end.

Definition lift {A} (x : Exc A) : M A := fun self => (x, self).

Definition get : M Client := fun self => (inr self, self).

(** [try: body except <caught>: raise replacement]. *)
Definition try_except {A} (body : M A) (caught : Exception -> bool)
    (replacement : Exception) : M A :=
  fun self =>
    match body self with
    | (inl e, self') =>
        (inl (if caught e then replacement else e), self')
    | (inr a, self') => (inr a, self')
    end.

Declare Scope method_scope.
Delimit Scope method_scope with method.
Notation "x <- m ;; k" := (bind m (fun x => k))
  (at level 20, m at level 99, k at level 200, only parsing) : method_scope.
Notation "m ;; k" := (bind m (fun _ => k))
  (at level 100, k at level 200, only parsing, right associativity)
  : method_scope.
Local Open Scope method_scope.

(** Attribute assignments on [self]. *)
Definition set_account (a : option Struct) : M unit := fun self =>
  (inr tt, mkClient (language self) (client_id self) (client_secret self)
             a (access_token self) (refresh_token self) (session self)).

Definition set_access_token (t : JSON) : M unit := fun self =>
  (inr tt, mkClient (language self) (client_id self) (client_secret self)
             (account self) t (refresh_token self) (session self)).

Definition set_refresh_token (t : JSON) : M unit := fun self =>
  (inr tt, mkClient (language self) (client_id self) (client_secret self)
             (account self) (access_token self) t (session self)).

Definition set_session (s : Session) : M unit := fun self =>
  (inr tt, mkClient (language self) (client_id self) (client_secret self)
             (account self) (access_token self) (refresh_token self) s).

Definition AUTH_URL : string := "https://oauth.secure.pixiv.net/auth/token".
Definition BASE_URL : string := "https://app-api.pixiv.net".
Definition FILTER : string := "for_ios".

Section Methods.
Context `{E : Env}.

(** [str(x)] inside an f-string. *)
Definition str : JSON -> string := str_with py_repr.

(** [Client.__init__]. *)
Definition __init__ (language client_id client_secret : string) : Client :=
  let h := headers_update HEADERS (headers_update default_headers ∅) in
  mkClient language client_id client_secret None JNull JNull
    (mkSession
       (if String.eqb language "" then h
        else headers_update [("Accept-Language", language)] h)
       []).

(** [self.session.request(...)]: the call is recorded, then answered. *)
Definition request (c : Call) : M Response := fun self =>
  let s := session self in
  let self' := snd (set_session (mkSession (headers s) (calls s ++ [c])) self) in
  match session_request s c with
  | Fails => (inl RequestException, self')
  | Replies r => (inr r, self')
  end.

(** [response.json()]. *)
Definition json (r : Response) : M JSON :=
  match json_loads (text r) with
  | Some j => ret j
  | None => raise JSONDecodeError
  end.

Definition is_JSONDecodeError (e : Exception) : bool :=
  match e with
  | JSONDecodeError => true
  | _ => false
  end.

(** [Client._request_json]. *)
Definition _request_json (method url : string) (params : option Params)
    (headers : option (list (string * string))) (data : option Params)
  : M JSON :=
  try_except
    (response <- request (mkCall method url params headers data) ;;
     if (status_code response / 100 =? 4)%Z
     then raise (BadApiResponse
                   ["Status code: " +:+ pretty (status_code response);
                    text response])
     else json response)
    is_JSONDecodeError (BadApiResponse []).

Definition is_auth_failure (e : Exception) : bool :=
  match e with
  | RequestException | JSONDecodeError | KeyError _ => true
  | _ => false
  end.

(** [r[k1][k2]]. *)
Definition getitem2 (r : JSON) (k1 k2 : string) : Exc JSON :=
  exc_bind (getitem r k1) (fun x => getitem x k2).

(** [Client._make_auth_request]. *)
Definition _make_auth_request (data : Params) : M unit :=
  try_except
    (self <- get ;;
     response <- request
       (mkCall "post" AUTH_URL None None
          (Some (dict_merge
                   [("client_id", One (AStr (client_id self)));
                    ("client_secret", One (AStr (client_secret self)));
                    ("get_secure_url", One (AInt 1))]
                   data))) ;;
     r <- json response ;;
     user <- lift (getitem2 r "response" "user") ;;
     set_account (Some (mkStruct user)) ;;
     token <- lift (getitem2 r "response" "access_token") ;;
     set_access_token token ;;
     token <- lift (getitem2 r "response" "refresh_token") ;;
     set_refresh_token token ;;
     self <- get ;;
     set_session
       (mkSession
          (headers_update
             [("Authorization", "Bearer " +:+ str (access_token self))]
             (headers (session self)))
          (calls (session self))))
    is_auth_failure LoginError.

(** [Client.login]. *)
Definition login (username password : string) : M unit :=
  _make_auth_request
    [("grant_type", One (AStr "password"));
     ("username", One (AStr username));
     ("password", One (AStr password))].

(** [Client.authenticate]. *)
Definition authenticate (refresh_token : string) : M unit :=
  _make_auth_request
    [("grant_type", One (AStr "refresh_token"));
     ("refresh_token", One (AStr refresh_token))].

(** Modelled from the spec: [pixivapi.common.require_auth] is not among the
    sources.  The spec asks that a gated method called before a successful
    login or refresh fails with the requires-login error before any network
    call; the guard runs first and lets the method run only when the client
    holds an access token, which [__init__] leaves unset and only
    [_make_auth_request] assigns. *)
Definition require_auth {A} (func : M A) : M A := fun self =>
  match access_token self with
  | JNull => raise AuthenticationRequired self
  | _ => func self
  end.

End Methods.

(** ** Pagination cursor extraction *)

(** The text of [s] up to the first [c]. *)
Fixpoint before (c : ascii) (s : string) : string :=
  match s with
  | EmptyString => EmptyString
  | String a s' => if Ascii.eqb a c then EmptyString else String a (before c s')
  end.

(** The text of [s] past the first [c], if [c] occurs. *)
Fixpoint after (c : ascii) (s : string) : option string :=
  match s with
  | EmptyString => None
  | String a s' => if Ascii.eqb a c then Some s' else after c s'
  end.

(** [s.split(c)]. *)
Fixpoint split (c : ascii) (s : string) : list string :=
  match s with
  | EmptyString => [EmptyString]
  | String a s' =>
      if Ascii.eqb a c then EmptyString :: split c s'
      else match split c s' with
           | [] => [String a EmptyString]
           | field :: fields => String a field :: fields
           end
  end.

(** The query component of a URL: what lies between the first [?] and the
    fragment. *)
Definition url_query (url : string) : string :=
  default "" (after "?" (before "#" url)).

(** The [name=value] pairs of a query string, in order. *)
Definition query_pairs (q : string) : list (string * string) :=
  map (fun field => (before "=" field, default "" (after "=" field)))
      (List.filter (fun field => negb (String.eqb field "")) (split "&" q)).

Definition is_digit (c : ascii) : bool :=
  let n := N_of_ascii c in ((48 <=? n) && (n <=? 57))%N.

Fixpoint decimal (acc : Z) (s : string) : option Z :=
  match s with
  | EmptyString => Some acc
  | String c s' =>
      if is_digit c
      then decimal (10 * acc + Z.of_N (N_of_ascii c - 48)) s'
      else None
  end.

(** A value that looks like a number is returned as that number. *)
Definition numeric (v : string) : JSON :=
  match v with
  | EmptyString => JStr v
  | _ => match decimal 0 v with
         | Some z => JInt z
         | None => JStr v
         end
  end.

(** Modelled from the spec: [pixivapi.common.parse_qs] is not among the
    sources.  The spec has it parse the query string of a next-page URL and
    return the value of the named parameter, as a number when it looks like
    one, and [None] when the URL is [None] or lacks the parameter. *)
Definition parse_qs (next_url : option string) (param : string)
  : option JSON :=
  match next_url with
  | None => None
  | Some url => numeric <$> assoc param (query_pairs (url_query url))
  end.

(** ** Endpoint methods *)

Declare Scope exc_scope.
Delimit Scope exc_scope with exc.
Notation "x <- m ;; k" := (exc_bind m (fun x => k))
  (at level 20, m at level 99, k at level 200, only parsing) : exc_scope.

(** An optional argument as the client places it in a dict. *)
Definition int_or_None (o : option Z) : Arg :=
  match o with
  | Some z => AInt z
  | None => ANone
  end.

Definition str_or_None (o : option string) : Arg :=
  match o with
  | Some s => AStr s
  | None => ANone
  end.

(** [e.value if e else None]; enum members are truthy. *)
Definition value_or_None (o : option Enum) : Arg :=
  match o with
  | Some e => value e
  | None => ANone
  end.

(** [Illustration(...)] and [Comment(...)], with or without [client=]. *)
Definition Illustration (j : JSON) (client : option Ref) : Exc Object :=
  match client with
  | Some self => (kw <- kwargs_with_client j self ;; inr (OIllustration kw))%exc
  | None => (kw <- kwargs_only j ;; inr (OIllustration kw))%exc
  end.

Definition Comment (j : JSON) (client : option Ref) : Exc Object :=
  match client with
  | Some self => (kw <- kwargs_with_client j self ;; inr (OComment kw))%exc
  | None => (kw <- kwargs_only j ;; inr (OComment kw))%exc
  end.

(** [[f(x) for x in j]]. *)
Definition comprehension {A} (f : JSON -> Exc A) (j : JSON) : Exc (list A) :=
  (items <- iter j ;; exc_map f items)%exc.

(** [[Illustration( **x, client=self) for x in response[key]]]. *)
Definition illustrations_of (response : JSON) (key : string) (self : Ref)
  : Exc Object :=
  (l <- getitem response key ;;
   models <- comprehension (fun illust => Illustration illust (Some self)) l ;;
   inr (OList models))%exc.

(** A next-page URL is a [str] or [None]. *)
Definition optional_str (j : JSON) : Exc (option string) :=
  match j with
  | JNull => inr None
  | JStr s => inr (Some s)
  | _ => inl TypeError
  end.

(** [parse_qs(response['next_url'], param=param)]. *)
Definition next_of (response : JSON) (param : string) : Exc Object :=
  (next_url <- getitem response "next_url" ;;
   url <- optional_str next_url ;;
   inr (OJson (default JNull (parse_qs url param))))%exc.

Section Endpoints.
Context `{E : Env}.

Definition search_illustrations (self : Ref) (word : string)
    (search_target sort : Enum) (duration : option Enum) (offset : option Z)
  : M Object :=
  require_auth
    (response <- _request_json "get" (BASE_URL +:+ "/v1/search/illust")
       (Some [("word", One (AStr word));
              ("search_target", One (value search_target));
              ("sort", One (value sort));
              ("duration", One (value_or_None duration));
              ("offset", One (int_or_None offset));
              ("filter", One (AStr FILTER))])
       None None ;;
     lift (illustrations <- illustrations_of response "illusts" self ;;
           next <- next_of response "offset" ;;
           limit <- getitem response "search_span_limit" ;;
           inr (ODict [("illustrations", illustrations);
                       ("next", next);
                       ("search_span_limit", OJson limit)]))%exc).

Definition fetch_illustration (self : Ref) (illustration_id : Z) : M Object :=
  require_auth
    (response <- _request_json "get" (BASE_URL +:+ "/v1/illust/detail")
       (Some [("illust_id", One (AInt illustration_id))])
       None None ;;
     lift (illust <- getitem response "illust" ;;
           Illustration illust (Some self))%exc).

Definition fetch_illustration_comments (self : Ref) (illustration_id : Z)
    (offset : option Z) (include_total_comments : bool) : M Object :=
  require_auth
    (response <- _request_json "get" (BASE_URL +:+ "/v1/illust/comments")
       (Some [("illust_id", One (AInt illustration_id));
              ("offset", One (int_or_None offset));
              ("include_total_comments",
               One (AStr (format_bool include_total_comments)))])
       None None ;;
     lift (l <- getitem response "comments" ;;
           comments <- comprehension
                         (fun comment => Comment comment (Some self)) l ;;
           next <- next_of response "offset" ;;
           total <- getitem response "total_comments" ;;
           inr (ODict [("comments", OList comments);
                       ("next", next);
                       ("total_comments", OJson total)]))%exc).

Definition fetch_illustration_related (self : Ref) (illustration_id : Z)
    (offset : option Z) : M Object :=
  require_auth
    (response <- _request_json "get" (BASE_URL +:+ "/v2/illust/related")
       (Some [("illust_id", One (AInt illustration_id));
              ("offset", One (int_or_None offset))])
       None None ;;
     lift (illustrations <- illustrations_of response "illusts" self ;;
           next <- next_of response "offset" ;;
           inr (ODict [("illustrations", illustrations);
                       ("next", next)]))%exc).

Definition fetch_illustrations_following (self : Ref) (visibility : Enum)
    (offset : option Z) : M Object :=
  require_auth
    (response <- _request_json "get" (BASE_URL +:+ "/v2/illust/follow")
       (Some [("restrict", One (value visibility))])
       None None ;;
     lift (illustrations <- illustrations_of response "illusts" self ;;
           next <- next_of response "offset" ;;
           inr (ODict [("illustrations", illustrations);
                       ("next", next)]))%exc).

(** [','.join(str(bid) for bid in ids)] when [ids] is truthy, else [ids]. *)
Definition joined_ids (bookmark_illust_ids : option (list Z)) : Param :=
  match bookmark_illust_ids with
  | None => One ANone
  | Some [] => Seq []
  | Some ids => One (AStr (String.concat "," (map pretty ids)))
  end.

Definition fetch_illustrations_recommended (self : Ref) (content_type : Enum)
    (include_ranking_illustrations : bool)
    (max_bookmark_id_for_recommend : option Z)
    (min_bookmark_id_for_recent_illustrations : option Z)
    (offset : option Z) (bookmark_illust_ids : option (list Z))
    (include_ranking_label : bool) : M Object :=
  require_auth
    (let bookmark_illust_ids := joined_ids bookmark_illust_ids in
     response <- _request_json "get" (BASE_URL +:+ "/v1/illust/recommended")
       (Some [("content_type", One (value content_type));
              ("include_ranking_label",
               One (AStr (format_bool include_ranking_label)));
              ("max_bookmark_id_for_recommend",
               One (int_or_None max_bookmark_id_for_recommend));
              ("min_bookmark_id_for_recent_illust",
               Seq [int_or_None min_bookmark_id_for_recent_illustrations]);
              ("offset", One (int_or_None offset));
              ("include_ranking_illusts",
               One (AStr (format_bool include_ranking_illustrations)));
              ("bookmark_illust_ids", bookmark_illust_ids)])
       None None ;;
     lift (contest <- getitem response "contest_exists" ;;
           illustrations <- illustrations_of response "illusts" self ;;
           next_min <- next_of response "min_bookmark_id_for_recent_illust" ;;
           next_max <- next_of response "max_bookmark_id_for_recommend" ;;
           next_offset <- next_of response "offset" ;;
           ranking <- illustrations_of response "ranking_illusts" self ;;
           inr (ODict
                  [("contest_exists", OJson contest);
                   ("illustrations", illustrations);
                   ("next",
                    ODict [("min_bookmark_id_for_recent_illustrations",
                            next_min);
                           ("max_bookmark_id_for_recommend", next_max);
                           ("offset", next_offset)]);
                   ("ranking_illustrations", ranking)]))%exc).

Definition fetch_illustrations_ranking (self : Ref) (mode : Enum)
    (date : option string) (offset : option Z) : M Object :=
  require_auth
    (response <- _request_json "get" (BASE_URL +:+ "/v1/illust/ranking")
       (Some [("mode", One (value mode));
              ("date", One (str_or_None date));
              ("offset", One (int_or_None offset));
              ("filter", One (AStr FILTER))])
       None None ;;
     lift (illustrations <- illustrations_of response "illusts" self ;;
           next <- next_of response "offset" ;;
           inr (ODict [("illustrations", illustrations);
                       ("next", next)]))%exc).

(** One entry of the list [fetch_trending_tags] returns. *)
Definition trending_entry (trending : JSON) : Exc Object :=
  (illust <- getitem trending "illust" ;;
   illustration <- Illustration illust None ;;
   tag <- getitem trending "tag" ;;
   translated_name <- getitem trending "translated_name" ;;
   inr (ODict [("illustration", illustration);
               ("tag", OJson tag);
               ("translated_name", OJson translated_name)]))%exc.

Definition fetch_trending_tags (self : Ref) : M Object :=
  require_auth
    (response <- _request_json "get" (BASE_URL +:+ "/v1/trending-tags/illust")
       (Some [("filter", One (AStr FILTER))])
       None None ;;
     lift (l <- getitem response "trend_tags" ;;
           entries <- comprehension trending_entry l ;;
           inr (OList entries))%exc).

Definition fetch_bookmark (self : Ref) (illustration_id : Z) : M Object :=
  require_auth
    (response <- _request_json "get"
       (BASE_URL +:+ "/v2/illust/bookmark/detail")
       (Some [("illust_id", One (AInt illustration_id))])
       None None ;;
     lift (response <- getitem response "bookmark_detail" ;;
           is_bookmarked <- getitem response "is_bookmarked" ;;
           restrict <- getitem response "restrict" ;;
           visibility <- match Visibility restrict with
                         | Some member => inr member
                         | None => inl ValueError
                         end ;;
           tags <- getitem response "tags" ;;
           inr (ODict [("is_bookmarked", OJson is_bookmarked);
                       ("visibility", OEnum visibility);
                       ("tags", OJson tags)]))%exc).

Definition add_bookmark (self : Ref) (illustration_id : Z)
    (visibility : Enum) : M Object :=
  require_auth
    (_request_json "post" (BASE_URL +:+ "/v2/illust/bookmark/add")
       None None
       (Some [("illust_id", One (AInt illustration_id));
              ("restrict", One (value visibility))]) ;;
     ret (OJson JNull)).

Definition delete_bookmark (self : Ref) (illustration_id : Z) : M Object :=
  require_auth
    (_request_json "post" (BASE_URL +:+ "/v1/illust/bookmark/delete")
       None None
       (Some [("illust_id", One (AInt illustration_id))]) ;;
     ret (OJson JNull)).

Definition fetch_user (self : Ref) (user_id : Z) : M Object :=
  response <- _request_json "get" (BASE_URL +:+ "/v1/user/detail")
    (Some [("user_id", One (AInt user_id));
           ("filter", One (AStr FILTER))])
    None None ;;
  ret (OStruct (mkStruct response)).

Definition fetch_user_illustrations (self : Ref) (user_id : Z)
    (type_ : option Enum) (offset : option Z) : M Object :=
  response <- _request_json "get" (BASE_URL +:+ "/v1/user/illusts")
    (Some [("user_id", One (AInt user_id));
           ("type", One (value_or_None type_));
           ("offset", One (int_or_None offset));
           ("filter", One (AStr FILTER))])
    None None ;;
  ret (OStruct (mkStruct response)).

Definition fetch_user_bookmarks (self : Ref) (user_id : Z)
    (visibility : Enum) (max_bookmark_id : option Z) (tag : option string)
  : M Object :=
  require_auth
    (response <- _request_json "get" (BASE_URL +:+ "/v1/user/bookmarks/illust")
       (Some [("user_id", One (AInt user_id));
              ("restrict", One (value visibility));
              ("max_bookmark_id", One (int_or_None max_bookmark_id));
              ("tag", One (str_or_None tag))])
       None None ;;
     ret (OStruct (mkStruct response))).

Definition fetch_user_bookmark_tags (self : Ref) (visibility : Enum)
    (offset : option Z) : M Object :=
  require_auth
    (response <- _request_json "get"
       (BASE_URL +:+ "/v1/user/bookmark-tags/illust")
       (Some [("restrict", One (value visibility));
              ("offset", One (int_or_None offset))])
       None None ;;
     ret (OStruct (mkStruct response))).

Definition fetch_following (self : Ref) (user_id : Z) (visibility : Enum)
    (offset : option Z) : M Object :=
  require_auth
    (response <- _request_json "get" (BASE_URL +:+ "/v1/user/following")
       (Some [("user_id", One (AInt user_id));
              ("restrict", One (value visibility));
              ("offset", One (int_or_None offset))])
       None None ;;
     ret (OStruct (mkStruct response))).

Definition fetch_followers (self : Ref) (user_id : Z) (offset : option Z)
  : M Object :=
  require_auth
    (response <- _request_json "get" (BASE_URL +:+ "/v1/user/follower")
       (Some [("user_id", One (AInt user_id));
              ("offset", One (int_or_None offset));
              ("filter", One (AStr FILTER))])
       None None ;;
     ret (OStruct (mkStruct response))).

Definition fetch_my_pixiv (self : Ref) (user_id : Z) (offset : option Z)
  : M Object :=
  require_auth
    (response <- _request_json "get" (BASE_URL +:+ "/v2/user/list")
       (Some [("user_id", One (AInt user_id));
              ("offset", One (int_or_None offset));
              ("filter", One (AStr FILTER))])
       None None ;;
     ret (OStruct (mkStruct response))).

End Endpoints.

(** ** The endpoint methods as one family *)

(** A call of an endpoint method with its arguments, in the order of the
    method's signature. *)
Inductive Method : Type :=
| SearchIllustrations (word : string) (search_target sort : Enum)
    (duration : option Enum) (offset : option Z)
| FetchIllustration (illustration_id : Z)
| FetchIllustrationComments (illustration_id : Z) (offset : option Z)
    (include_total_comments : bool)
| FetchIllustrationRelated (illustration_id : Z) (offset : option Z)
| FetchIllustrationsFollowing (visibility : Enum) (offset : option Z)
| FetchIllustrationsRecommended (content_type : Enum)
    (include_ranking_illustrations : bool)
    (max_bookmark_id_for_recommend : option Z)
    (min_bookmark_id_for_recent_illustrations : option Z)
    (offset : option Z) (bookmark_illust_ids : option (list Z))
    (include_ranking_label : bool)
| FetchIllustrationsRanking (mode : Enum) (date : option string)
    (offset : option Z)
| FetchTrendingTags
| FetchBookmark (illustration_id : Z)
| AddBookmark (illustration_id : Z) (visibility : Enum)
| DeleteBookmark (illustration_id : Z)
| FetchUser (user_id : Z)
| FetchUserIllustrations (user_id : Z) (type_ : option Enum)
    (offset : option Z)
| FetchUserBookmarks (user_id : Z) (visibility : Enum)
    (max_bookmark_id : option Z) (tag : option string)
| FetchUserBookmarkTags (visibility : Enum) (offset : option Z)
| FetchFollowing (user_id : Z) (visibility : Enum) (offset : option Z)
| FetchFollowers (user_id : Z) (offset : option Z)
| FetchMyPixiv (user_id : Z) (offset : option Z).

Definition invoke `{E : Env} (self : Ref) (m : Method) : M Object :=
  match m with
  | SearchIllustrations w t s d o => search_illustrations self w t s d o
  | FetchIllustration i => fetch_illustration self i
  | FetchIllustrationComments i o t => fetch_illustration_comments self i o t
  | FetchIllustrationRelated i o => fetch_illustration_related self i o
  | FetchIllustrationsFollowing v o => fetch_illustrations_following self v o
  | FetchIllustrationsRecommended c r mx mn o b l =>
      fetch_illustrations_recommended self c r mx mn o b l
  | FetchIllustrationsRanking m d o => fetch_illustrations_ranking self m d o
  | FetchTrendingTags => fetch_trending_tags self
  | FetchBookmark i => fetch_bookmark self i
  | AddBookmark i v => add_bookmark self i v
  | DeleteBookmark i => delete_bookmark self i
  | FetchUser u => fetch_user self u
  | FetchUserIllustrations u t o => fetch_user_illustrations self u t o
  | FetchUserBookmarks u v mx t => fetch_user_bookmarks self u v mx t
  | FetchUserBookmarkTags v o => fetch_user_bookmark_tags self v o
  | FetchFollowing u v o => fetch_following self u v o
  | FetchFollowers u o => fetch_followers self u o
  | FetchMyPixiv u o => fetch_my_pixiv self u o
  end.

(** The methods decorated with [@require_auth] in the source. *)
Definition requires_auth (m : Method) : bool :=
  match m with
  | FetchUser _ | FetchUserIllustrations _ _ _ => false
  | _ => true
  end.

(** The request parameter names of the optional arguments that a call
    leaves unset, that is at [None]: the arguments whose default is [None],
    and [type_] of [fetch_user_illustrations] when [None] is passed for
    it. *)
Definition unset_name {A} (name : string) (o : option A) : list string :=
  match o with
  | None => [name]
  | Some _ => []
  end.

Definition unset (m : Method) : list string :=
  match m with
  | SearchIllustrations _ _ _ d o =>
      unset_name "duration" d ++ unset_name "offset" o
  | FetchIllustrationComments _ o _ => unset_name "offset" o
  | FetchIllustrationRelated _ o => unset_name "offset" o
  | FetchIllustrationsFollowing _ o => unset_name "offset" o
  | FetchIllustrationsRecommended _ _ mx mn o b _ =>
      unset_name "max_bookmark_id_for_recommend" mx
      ++ unset_name "min_bookmark_id_for_recent_illust" mn
      ++ unset_name "offset" o
      ++ unset_name "bookmark_illust_ids" b
  | FetchIllustrationsRanking _ d o =>
      unset_name "date" d ++ unset_name "offset" o
  | FetchUserIllustrations _ t o =>
      unset_name "type" t ++ unset_name "offset" o
  | FetchUserBookmarks _ _ mx t =>
      unset_name "max_bookmark_id" mx ++ unset_name "tag" t
  | FetchUserBookmarkTags _ o => unset_name "offset" o
  | FetchFollowing _ _ o => unset_name "offset" o
  | FetchFollowers _ o => unset_name "offset" o
  | FetchMyPixiv _ o => unset_name "offset" o
  | FetchIllustration _ | FetchTrendingTags | FetchBookmark _
  | AddBookmark _ _ | DeleteBookmark _ | FetchUser _ => []
  end.

(** The calls a run of [m] on [self] added to the session's record. *)
Definition new_calls {A} (m : M A) (self : Client) : list Call :=
  drop (length (calls (session self))) (calls (session (snd (m self)))).

(** The model instances found in a returned value. *)
Fixpoint models (o : Object) : list (list (string * KwArg)) :=
  match o with
  | OIllustration kw | OComment kw => [kw]
  | OList items => flat_map models items
  | ODict members => flat_map (fun kv => models (snd kv)) members
  | OJson _ | OStruct _ | OEnum _ => []
  end.

(** ** A scripted environment

    A stand-in for the remote service, in the manner of a transport mock:
    it answers a fixed set of requests with fixed documents, and decodes
    exactly the documents it serves. *)
Module Scripted.

Definition quote : string := String (ascii_of_N 34) EmptyString.
Definition apostrophe : string := String (ascii_of_N 39) EmptyString.

(** Text of a value whose strings need no escaping: JSON text, or Python's
    [repr] when [python] is set. *)
Fixpoint render (python : bool) (j : JSON) : string :=
  let q := if python then apostrophe else quote in
  match j with
  | JNull => if python then "None" else "null"
  | JBool true => if python then "True" else "true"
  | JBool false => if python then "False" else "false"
  | JInt z => pretty z
  | JFloat literal => literal
  | JStr s => q +:+ s +:+ q
  | JArr items => "[" +:+ String.concat ", " (map (render python) items) +:+ "]"
  | JObj members =>
      "{" +:+ String.concat ", "
                (map (fun kv => match kv with
                                | (k, v) => q +:+ k +:+ q +:+ ": " +:+ render python v
                                end) members)
      +:+ "}"
  end.

Definition dumps : JSON -> string := render false.

Definition tokens : JSON :=
  JObj [("response",
         JObj [("user", JObj [("id", JInt 7); ("name", JStr "alice")]);
               ("access_token", JStr "at-1");
               ("refresh_token", JStr "rt-1")])].

Definition tokens_without_refresh : JSON :=
  JObj [("response",
         JObj [("user", JObj [("id", JInt 8); ("name", JStr "bob")]);
               ("access_token", JStr "at-2")])].

Definition trending : JSON :=
  JObj [("trend_tags",
         JArr [JObj [("illust", JObj [("id", JInt 59580629);
                                      ("title", JStr "t")]);
                     ("tag", JStr "kancolle");
                     ("translated_name", JNull)]])].

Definition search_page : JSON :=
  JObj [("illusts", JArr [JObj [("id", JInt 1)]; JObj [("id", JInt 2)]]);
        ("next_url",
         JStr "https://app-api.pixiv.net/v1/search/illust?offset=30&foo=bar");
        ("search_span_limit", JInt 31536000)].

Definition documents : list JSON :=
  [tokens; tokens_without_refresh; trending; search_page].

Definition loads (body : string) : option JSON :=
  assoc body (map (fun j => (dumps j, j)) documents).

Definition field (name : string) (c : Call) : option string :=
  assoc name (form c).

(** The token endpoint knows three users and one refresh token; the API
    serves two listings, has no user 404 and is down for everything else. *)
Definition transport (s : Session) (c : Call) : Outcome :=
  if String.eqb (call_url c) AUTH_URL then
    match field "username" c, field "refresh_token" c with
    | Some "alice", _ | _, Some "rt-1" =>
        Replies (mkResponse 200 (dumps tokens))
    | Some "bob", _ => Replies (mkResponse 200 (dumps tokens_without_refresh))
    | Some "carol", _ => Replies (mkResponse 200 "not json")
    | _, _ => Fails
    end
  else if String.eqb (call_url c) (BASE_URL +:+ "/v1/trending-tags/illust")
  then Replies (mkResponse 200 (dumps trending))
  else if String.eqb (call_url c) (BASE_URL +:+ "/v1/search/illust")
  then Replies (mkResponse 200 (dumps search_page))
  else if String.eqb (call_url c) (BASE_URL +:+ "/v1/user/detail")
  then match assoc "user_id" (query c) with
       | Some "404" => Replies (mkResponse 404 "Not Found")
       | _ => Replies (mkResponse 200 "not json")
       end
  else Fails.

Definition visibility (j : JSON) : option Enum :=
  match j with
  | JStr "public" => Some (mkEnum (AStr "public"))
  | JStr "private" => Some (mkEnum (AStr "private"))
  | _ => None
  end.

Definition env : Env := {|
  session_request := transport;
  default_headers := [("User-Agent", "python-requests/2.31.0");
                      ("Accept-Encoding", "gzip, deflate");
                      ("Accept", "*/*");
                      ("Connection", "keep-alive")];
  json_loads := loads;
  json_loads_empty := eq_refl;
  py_repr := render true;
  HEADERS := [("User-Agent", "PixivIOSApp/7.6.2 (iOS 12.2; iPhone9,1)")];
  format_bool := fun b => if b then "true" else "false";
  Visibility := visibility;
|}.

(** A client just constructed, and one that has logged in as alice. *)
Definition fresh : Client :=
  @__init__ env "English" "KzEZED7aC0vird8jWyHM38mXjNTY"
    "W9JZoJe00qPvJsiyCGT3CCtC6ZUtdpKpzMbNlUGP".

Definition logged_in : Client := snd (@login env "alice" "secret" fresh).

End Scripted.

(** ** The scripted service on a bad day

    A gateway sits in front of the scripted service.  It answers mallory's
    login itself with the document [null], acknowledges a bookmark with an
    empty body, turns a search away with an error document, and passes
    everything else through with the status 503. *)
Module Degraded.

Definition busy : JSON := JObj [("error", JStr "rate limit")].

Definition loads (body : string) : option JSON :=
  if String.eqb body "null" then Some JNull
  else if String.eqb body (Scripted.dumps busy) then Some busy
  else Scripted.loads body.

Definition transport (s : Session) (c : Call) : Outcome :=
  if String.eqb (call_url c) (BASE_URL +:+ "/v2/illust/bookmark/add")
  then Replies (mkResponse 200 "")
  else if String.eqb (call_url c) (BASE_URL +:+ "/v1/search/illust")
  then Replies (mkResponse 200 (Scripted.dumps busy))
  else match Scripted.field "username" c with
       | Some "mallory" => Replies (mkResponse 200 "null")
       | _ =>
           match Scripted.transport s c with
           | Replies r => Replies (mkResponse 503 (text r))
           | Fails => Fails
           end
       end.

Definition env : Env := {|
  session_request := transport;
  default_headers := @default_headers Scripted.env;
  json_loads := loads;
  json_loads_empty := eq_refl;
  py_repr := Scripted.render true;
  HEADERS := @HEADERS Scripted.env;
  format_bool := @format_bool Scripted.env;
  Visibility := Scripted.visibility;
|}.

End Degraded.

(** ** Vocabulary of the statements *)

(** The two ways into [_make_auth_request]. *)
Inductive Grant : Type :=
| Password (username password : string)
| RefreshToken (refresh_token : string).

Definition exchange `{E : Env} (g : Grant) : M unit :=
  match g with
  | Password username password => login username password
  | RefreshToken token => authenticate token
  end.

(** The grant-specific fields [login] and [authenticate] pass down. *)
Definition grant_data (g : Grant) : Params :=
  match g with
  | Password username password =>
      [("grant_type", One (AStr "password"));
       ("username", One (AStr username));
       ("password", One (AStr password))]
  | RefreshToken token =>
      [("grant_type", One (AStr "refresh_token"));
       ("refresh_token", One (AStr token))]
  end.

(** The call [_make_auth_request] hands to the session. *)
Definition token_request (self : Client) (g : Grant) : Call :=
  mkCall "post" AUTH_URL None None
    (Some ([("client_id", One (AStr (client_id self)));
            ("client_secret", One (AStr (client_secret self)));
            ("get_secure_url", One (AInt 1))] ++ grant_data g)).

(** [self] once the session has recorded [c]. *)
Definition recorded (c : Call) (self : Client) : Client :=
  mkClient (language self) (client_id self) (client_secret self)
    (account self) (access_token self) (refresh_token self)
    (mkSession (headers (session self)) (calls (session self) ++ [c])).

(** What [session.request(...).json()] evaluates to in the exchange: the
    decoded body, or the exception of the transport or of the decoder. *)
Definition token_reply `{E : Env} (self : Client) (g : Grant) : Exc JSON :=
  match session_request (session self) (token_request self g) with
  | Fails => inl RequestException
  | Replies r =>
      match json_loads (text r) with
      | Some j => inr j
      | None => inl JSONDecodeError
      end
  end.

(** The three values the exchange reads off the decoded body, in the order
    it reads them. *)
Definition expected_keys (r : JSON) : Exc (JSON * JSON * JSON) :=
  (user <- getitem2 r "response" "user" ;;
   access <- getitem2 r "response" "access_token" ;;
   refresh <- getitem2 r "response" "refresh_token" ;;
   inr (user, access, refresh))%exc.

(** The hundreds digit of a status code. *)
Definition hundreds_digit (status : Z) : Z := (status / 100) mod 10.

(** The error [_request_json] raises on account of the status code. *)
Definition status_error (r : Response) : Exception :=
  BadApiResponse ["Status code: " +:+ pretty (status_code r); text r].

(** Every entry of a dict under [k] carries no value the encoder emits. *)
Definition all_None (p : Param) : bool :=
  match p with
  | One ANone => true
  | One _ => false
  | Seq items => forallb (fun a => match a with ANone => true | _ => false end) items
  end.

Definition silent (k : string) (d : Params) : bool :=
  forallb (fun kv => if String.eqb (fst kv) k then all_None (snd kv) else true) d.

Definition silent_call (k : string) (c : Call) : bool :=
  match call_params c with
  | Some d => silent k d
  | None => true
  end
  &&
  match call_data c with
  | Some d => silent k d
  | None => true
  end.

(** What [_make_auth_request] lets out when its body raised [e]. *)
Definition caught (e : Exception) : Exception :=
  if is_auth_failure e then LoginError else e.

(** A continuation that leaves [self] as it is. *)
Definition pure_step {A B} (k : A -> M B) : Prop :=
  forall a self, snd (k a self) = self.

(** The one call [fetch_illustrations_following] makes. *)
Definition following_request (visibility : Enum) : Call :=
  mkCall "get" (BASE_URL +:+ "/v2/illust/follow")
    (Some [("restrict", One (value visibility))]) None None.

(** [c] does not occur in [s]. *)
Definition lacks (c : ascii) (s : string) : Prop := after c s = None.

(** [name=value] fields joined by [&]. *)
Definition urlencode (pairs : list (string * string)) : string :=
  String.concat "&" (map (fun kv => fst kv +:+ "=" +:+ snd kv) pairs).

(** A pair that needs no escaping in a query string. *)
Definition plain (kv : string * string) : Prop :=
  fst kv <> "" /\ lacks "&" (fst kv) /\ lacks "=" (fst kv) /\ lacks "#" (fst kv)
  /\ lacks "&" (snd kv) /\ lacks "#" (snd kv).

(** ** Vocabulary of the further properties *)

(** [j is None]. *)
Definition is_null (j : JSON) : bool :=
  match j with
  | JNull => true
  | _ => false
  end.

(** What a method whose body is [f] applied to the result of [_request_json]
    returns or raises, given the call [c] it makes. *)
Definition answer `{E : Env} (c : Call) (f : JSON -> Exc Object)
    (self : Client) : Exc Object :=
  match session_request (session self) c with
  | Fails => inl RequestException
  | Replies r =>
      if (status_code r / 100 =? 4)%Z then inl (status_error r)
      else match json_loads (text r) with
           | Some j => f j
           | None => inl (BadApiResponse [])
           end
  end.

(** The names under which a call carries values. *)
Definition call_keys (c : Call) : list string :=
  map fst (default [] (call_params c)) ++ map fst (default [] (call_data c)).

(** The fields of the token request. *)
Definition credential_keys : list string :=
  ["client_id"; "client_secret"; "username"; "password"; "refresh_token";
   "grant_type"].

(** A call to the API host: no headers of its own, a [get] without form body
    or a [post] without query, and none of the credential fields. *)
Definition api_call (c : Call) : bool :=
  match call_headers c with None => true | Some _ => false end
  && String.prefix (BASE_URL +:+ "/v") (call_url c)
  && match call_data c, call_params c with
     | None, _ => String.eqb (call_method c) "get"
     | Some _, None => String.eqb (call_method c) "post"
     | Some _, Some _ => false
     end
  && forallb (fun k => negb (existsb (String.eqb k) (call_keys c)))
       credential_keys.

(** Every model instance [f] builds refers to the client at [ref]. *)
Definition refers (ref : Ref) (f : JSON -> Exc Object) : Prop :=
  forall r o, f r = inr o ->
    Forall (fun kw => client_of kw = Some ref) (models o).

(** [j] is a dict. *)
Definition is_object (j : JSON) : bool :=
  match j with
  | JObj _ => true
  | _ => false
  end.

(** The form fields of a grant, as sent. *)
Definition grant_fields (g : Grant) : list (string * string) :=
  match g with
  | Password username password =>
      [("grant_type", "password"); ("username", username);
       ("password", password)]
  | RefreshToken token =>
      [("grant_type", "refresh_token"); ("refresh_token", token)]
  end.

(** One use of the client: a login or refresh, or an endpoint call. *)
Inductive Op : Type :=
| Exchange (g : Grant)
| Invoke (ref : Ref) (m : Method).

(** The client after one use, whatever came back. *)
Definition step `{E : Env} (op : Op) (self : Client) : Client :=
  match op with
  | Exchange g => snd (exchange g self)
  | Invoke ref m => snd (invoke ref m self)
  end.

(** The client after a sequence of uses, first to last. *)
Definition run `{E : Env} (ops : list Op) (self : Client) : Client :=
  fold_left (fun s op => step op s) ops self.

(** What every use of the client keeps. *)
Definition kept (lang id secret : string) (self : Client) : Prop :=
  language self = lang /\ client_id self = id /\ client_secret self = secret
  /\ (lang <> "" ->
      header_get "Accept-Language" (headers (session self)) = Some lang)
  /\ (account self = None ->
      access_token self = JNull /\ refresh_token self = JNull).

(** The pairs of a query under one name. *)
Definition values_of (name : string) (q : list (string * string))
  : list string :=
  map snd (List.filter (fun kv => String.eqb (fst kv) name) q).

(** The two methods that write a bookmark. *)
Definition writes_bookmark (m : Method) : bool :=
  match m with
  | AddBookmark _ _ | DeleteBookmark _ => true
  | _ => false
  end.

(** The key a method reads first off the decoded body, when it reads any. *)
Definition first_key (m : Method) : option string :=
  match m with
  | SearchIllustrations _ _ _ _ _ | FetchIllustrationRelated _ _
  | FetchIllustrationsFollowing _ _ | FetchIllustrationsRanking _ _ _ =>
      Some "illusts"
  | FetchIllustration _ => Some "illust"
  | FetchIllustrationComments _ _ _ => Some "comments"
  | FetchIllustrationsRecommended _ _ _ _ _ _ _ => Some "contest_exists"
  | FetchTrendingTags => Some "trend_tags"
  | FetchBookmark _ => Some "bookmark_detail"
  | _ => None
  end.



(** * Properties *)

(** ** The request/response pipeline *)

Section Pipeline.
Context `{E : Env}.

Lemma request_run (c : Call) (self : Client) :
  request c self =
  (match session_request (session self) c with
   | Fails => inl RequestException
   | Replies r => inr r
   end, recorded c self).
Proof.
  unfold request. destruct (session_request (session self) c); reflexivity.
Qed.

Lemma _request_json_run method url params hdrs data (self : Client) :
  _request_json method url params hdrs data self =
  (match session_request (session self) (mkCall method url params hdrs data) with
   | Fails => inl RequestException
   | Replies r =>
       if (status_code r / 100 =? 4)%Z then inl (status_error r)
       else match json_loads (text r) with
            | Some j => inr j
            | None => inl (BadApiResponse [])
            end
   end, recorded (mkCall method url params hdrs data) self).
Proof.
  unfold _request_json, try_except, bind. rewrite request_run.
  destruct (session_request _ _) as [|r]; [reflexivity|].
  destruct (status_code r / 100 =? 4)%Z; [reflexivity|].
  unfold json. destruct (json_loads (text r)); reflexivity.
Qed.

Lemma hundreds_digit_4 (status : Z) :
  100 <= status <= 999 -> (hundreds_digit status = 4 <-> status / 100 = 4).
Proof.
  intros Hrange. unfold hundreds_digit.
  assert (1 <= status / 100 <= 9) as Hq.
  { split.
    - apply Z.div_le_lower_bound; lia.
    - apply Z.lt_succ_r. apply Z.div_lt_upper_bound; lia. }
  rewrite Z.mod_small by lia. reflexivity.
Qed.

Lemma floor_4_hundreds_digit (status : Z) :
  status / 100 = 4 -> hundreds_digit status = 4.
Proof. intros H. unfold hundreds_digit. rewrite H. reflexivity. Qed.

(** C2.  When the session answers a call of [_request_json] with a response
    whose status code is a three-digit HTTP status, the method raises the
    bad-API-response error built from the status code and the raw body text
    exactly when the hundreds digit of the status code is 4; for any other
    hundreds digit (2 and 5 alike) the outcome is decided by the body
    alone. *)
Theorem request_json_status method url params hdrs data (self : Client)
    (r : Response) :
  session_request (session self) (mkCall method url params hdrs data)
  = Replies r ->
  100 <= status_code r <= 999 ->
  let result := fst (_request_json method url params hdrs data self) in
  (result = inl (status_error r) <-> hundreds_digit (status_code r) = 4)
  /\ (hundreds_digit (status_code r) <> 4 ->
      result = match json_loads (text r) with
               | Some j => inr j
               | None => inl (BadApiResponse [])
               end).
Proof.
  intros Hreply Hrange result. subst result.
  rewrite _request_json_run, Hreply. cbn [fst].
  rewrite (hundreds_digit_4 _ Hrange).
  destruct (Z.eqb_spec (status_code r / 100) 4) as [H4|H4].
  - split; [tauto | intros Hne; contradiction].
  - split; [| reflexivity].
    split; [| intros; contradiction].
    unfold status_error. destruct (json_loads (text r)); discriminate.
Qed.

(** C3.  When the hundreds digit of the status code is not 4,
    [_request_json] raises the bad-API-response error without arguments
    exactly when the body does not decode as JSON, as an empty body never
    does, and otherwise returns the decoded value as it is. *)
Theorem request_json_body method url params hdrs data (self : Client)
    (r : Response) :
  session_request (session self) (mkCall method url params hdrs data)
  = Replies r ->
  hundreds_digit (status_code r) <> 4 ->
  let result := fst (_request_json method url params hdrs data self) in
  (result = inl (BadApiResponse []) <-> json_loads (text r) = None)
  /\ (text r = "" -> result = inl (BadApiResponse []))
  /\ (forall j, json_loads (text r) = Some j -> result = inr j).
Proof.
  intros Hreply Hdigit result. subst result.
  rewrite _request_json_run, Hreply. cbn [fst].
  destruct (Z.eqb_spec (status_code r / 100) 4) as [H4|H4].
  - exfalso. apply Hdigit. apply floor_4_hundreds_digit. exact H4.
  - destruct (json_loads (text r)) as [j|] eqn:Hbody.
    + split; [split; discriminate |]. split.
      * intros Hempty. rewrite Hempty, json_loads_empty in Hbody.
        discriminate Hbody.
      * intros j' Hj'. congruence.
    + split; [tauto |]. split; [reflexivity | discriminate].
Qed.

End Pipeline.

(** ** Authentication *)

Section Authentication.
Context `{E : Env}.

Lemma exchange_unfold (g : Grant) :
  exchange g = _make_auth_request (grant_data g).
Proof. destruct g; reflexivity. Qed.

(** The exchange, case by case. *)
Lemma exchange_run (g : Grant) (self : Client) :
  exchange g self =
  let c := token_request self g in
  let s0 := recorded c self in
  match token_reply self g with
  | inl e => (inl LoginError, s0)
  | inr j =>
      match getitem2 j "response" "user" with
      | inl e => (inl (caught e), s0)
      | inr user =>
          let s1 := snd (set_account (Some (mkStruct user)) s0) in
          match getitem2 j "response" "access_token" with
          | inl e => (inl (caught e), s1)
          | inr access =>
              let s2 := snd (set_access_token access s1) in
              match getitem2 j "response" "refresh_token" with
              | inl e => (inl (caught e), s2)
              | inr refresh =>
                  (inr tt,
                   mkClient (language self) (client_id self)
                     (client_secret self)
                     (Some (mkStruct user)) access refresh
                     (mkSession
                        (header_set "Authorization"
                           ("Bearer " +:+ str access)
                           (headers (session self)))
                        (calls (session self) ++ [c])))
              end
          end
      end
  end.
Proof.
  rewrite exchange_unfold.
  unfold _make_auth_request, try_except, bind, get.
  rewrite request_run.
  replace (dict_merge _ (grant_data g)) with
    ([("client_id", One (AStr (client_id self)));
      ("client_secret", One (AStr (client_secret self)));
      ("get_secure_url", One (AInt 1))] ++ grant_data g)
    by (destruct g; reflexivity).
  fold (token_request self g). unfold token_reply.
  destruct (session_request _ _) as [|r]; [reflexivity|].
  unfold json. destruct (json_loads (text r)) as [j|]; [|reflexivity].
  cbn [ret lift].
  destruct (getitem2 j "response" "user") as [e|user]; [reflexivity|].
  cbn [set_account snd].
  destruct (getitem2 j "response" "access_token") as [e|access];
    [reflexivity|].
  cbn [set_access_token snd].
  destruct (getitem2 j "response" "refresh_token") as [e|refresh];
    reflexivity.
Qed.


(** C5.  After a [login] or [authenticate] that returned, the session's
    default headers hold an [Authorization] header whose value is ["Bearer "]
    followed by the access token of that response (the token itself when it
    is a string), and [access_token] and [refresh_token] are the tokens of
    that response. *)
Theorem exchange_success (g : Grant) (self : Client) :
  fst (exchange g self) = inr tt ->
  let self' := snd (exchange g self) in
  exists j user access refresh,
    token_reply self g = inr j
    /\ expected_keys j = inr (user, access, refresh)
    /\ header_get "Authorization" (headers (session self'))
       = Some ("Bearer " +:+ str access)
    /\ (forall token, access = JStr token ->
        header_get "Authorization" (headers (session self'))
        = Some ("Bearer " +:+ token))
    /\ access_token self' = access
    /\ refresh_token self' = refresh.
Proof.
  intros Hok self'. subst self'. revert Hok.
  rewrite exchange_run. cbv zeta.
  destruct (token_reply self g) as [e|j]; [discriminate|].
  destruct (getitem2 j "response" "user") as [e|user] eqn:Huser;
    [discriminate|].
  destruct (getitem2 j "response" "access_token") as [e|access] eqn:Haccess;
    [discriminate|].
  destruct (getitem2 j "response" "refresh_token") as [e|refresh] eqn:Hrefresh;
    [discriminate|].
  intros _. exists j, user, access, refresh.
  cbn [snd session headers access_token refresh_token].
  assert (header_get "Authorization"
            (header_set "Authorization" ("Bearer " +:+ str access)
               (headers (session self)))
          = Some ("Bearer " +:+ str access)) as Hheader.
  { unfold header_get, header_set. rewrite lookup_insert_eq. reflexivity. }
  split; [reflexivity|].
  split; [unfold expected_keys; rewrite Huser, Haccess, Hrefresh; reflexivity|].
  split; [exact Hheader|].
  split; [intros token ->; exact Hheader|].
  split; reflexivity.
Qed.

(** C1, as amended.  When the exchange run by [login] or [authenticate]
    fails, [refresh_token] and the session's default headers are what they
    were before the call; [account] and [access_token] are also what they
    were when the failure came before the [user] entry of the response was
    read (a transport failure, a body that does not decode, no [response] or
    no [user]), and [access_token] is what it was when the response holds no
    [access_token].  When a later key is missing, the fields assigned before
    it hold the values of the failing response: [account] wraps its [user],
    and [access_token] is its [access_token] when it has one. *)
Theorem exchange_failure_state (g : Grant) (self : Client) (e : Exception) :
  fst (exchange g self) = inl e ->
  let self' := snd (exchange g self) in
  refresh_token self' = refresh_token self
  /\ headers (session self') = headers (session self)
  /\ ((forall j user, token_reply self g = inr j ->
         getitem2 j "response" "user" <> inr user) ->
      account self' = account self /\ access_token self' = access_token self)
  /\ ((forall j access, token_reply self g = inr j ->
         getitem2 j "response" "access_token" <> inr access) ->
      access_token self' = access_token self)
  /\ (forall j user, token_reply self g = inr j ->
        getitem2 j "response" "user" = inr user ->
        account self' = Some (mkStruct user))
  /\ (forall j user access, token_reply self g = inr j ->
        getitem2 j "response" "user" = inr user ->
        getitem2 j "response" "access_token" = inr access ->
        access_token self' = access).
Proof.
  intros Hfail self'. subst self'. revert Hfail.
  rewrite exchange_run. cbv zeta.
  destruct (token_reply self g) as [e0|j].
  { intros _. repeat split; discriminate. }
  destruct (getitem2 j "response" "user") as [e1|user] eqn:Huser.
  { intros _. repeat split; intros; congruence. }
  destruct (getitem2 j "response" "access_token") as [e2|access] eqn:Haccess.
  { intros _. split; [reflexivity|]. split; [reflexivity|].
    split; [| split; [intros _; reflexivity | split]].
    - intros Hnone. exfalso. exact (Hnone j user eq_refl Huser).
    - intros j' user' Hj Huser'. cbn. congruence.
    - intros j' user' access' Hj Huser' Haccess'. congruence. }
  destruct (getitem2 j "response" "refresh_token") as [e3|refresh].
  { intros _. split; [reflexivity|]. split; [reflexivity|].
    split; [| split; [| split]].
    - intros Hnone. exfalso. exact (Hnone j user eq_refl Huser).
    - intros Hnone. exfalso. exact (Hnone j access eq_refl Haccess).
    - intros j' user' Hj Huser'. cbn. congruence.
    - intros j' user' access' Hj Huser' Haccess'. cbn. congruence. }
  discriminate.
Qed.

End Authentication.

(** ** The authentication gate and the outgoing requests *)

Ltac unfold_methods :=
  unfold search_illustrations, fetch_illustration,
    fetch_illustration_comments, fetch_illustration_related,
    fetch_illustrations_following, fetch_illustrations_recommended,
    fetch_illustrations_ranking, fetch_trending_tags, fetch_bookmark,
    add_bookmark, delete_bookmark, fetch_user, fetch_user_illustrations,
    fetch_user_bookmarks, fetch_user_bookmark_tags, fetch_following,
    fetch_followers, fetch_my_pixiv.

Section Requests.
Context `{E : Env}.

Lemma require_auth_unset {A} (func : M A) (self : Client) :
  access_token self = JNull ->
  require_auth func self = (inl AuthenticationRequired, self).
Proof. intros H. unfold require_auth. rewrite H. reflexivity. Qed.

Lemma new_calls_unchanged {A} (m : M A) (self : Client) :
  snd (m self) = self -> new_calls m self = [].
Proof.
  intros H. unfold new_calls. rewrite H. apply drop_all.
Qed.

Lemma new_calls_request_json {B} method url params hdrs data
    (k : JSON -> M B) (self : Client) :
  pure_step k ->
  new_calls (bind (_request_json method url params hdrs data) k) self
  = [mkCall method url params hdrs data].
Proof.
  intros Hk. unfold new_calls, bind. rewrite _request_json_run.
  match goal with
  | |- context [match ?x with inl e => _ | inr a => _ end] =>
      destruct x as [e|j]
  end.
  - cbn [snd recorded session calls]. apply drop_app_length.
  - rewrite Hk. cbn [snd recorded session calls]. apply drop_app_length.
Qed.

Lemma new_calls_require_auth {A} (func : M A) (self : Client) :
  new_calls (require_auth func) self
  = match access_token self with
    | JNull => []
    | _ => new_calls func self
    end.
Proof.
  unfold new_calls at 1, require_auth.
  destruct (access_token self); try reflexivity.
  cbn [raise snd]. apply drop_all.
Qed.

Lemma new_calls_gate {A} (func : M A) (self : Client) :
  new_calls (require_auth func) self = []
  \/ (access_token self <> JNull
      /\ new_calls (require_auth func) self = new_calls func self).
Proof.
  rewrite new_calls_require_auth.
  destruct (access_token self);
    (left; reflexivity) || (right; split; [discriminate | reflexivity]).
Qed.

(** The guard on an unset token.  A method decorated with [require_auth],
    called on a client whose access token is unset, raises the
    requires-login error, leaves the client as it was and hands no call to
    the session. *)
Theorem require_auth_gate (ref : Ref) (m : Method) (self : Client) :
  requires_auth m = true ->
  access_token self = JNull ->
  invoke ref m self = (inl AuthenticationRequired, self)
  /\ new_calls (invoke ref m) self = [].
Proof.
  intros Hgated Hunset.
  assert (invoke ref m self = (inl AuthenticationRequired, self)) as Hraise.
  { destruct m; try discriminate Hgated;
      cbn [invoke]; apply require_auth_unset; exact Hunset. }
  split; [exact Hraise|].
  apply new_calls_unchanged. rewrite Hraise. reflexivity.
Qed.

Lemma encode_arg_keys (k : string) (a : Arg) (x : string * string) :
  In x (encode_arg k a) -> fst x = k /\ a <> ANone.
Proof.
  destruct a; cbn; intros Hin; try contradiction;
    destruct Hin as [<-|[]]; split; (reflexivity || discriminate).
Qed.

Lemma silent_encode (k : string) (d : Params) :
  silent k d = true -> ~ In k (map fst (_encode_params d)).
Proof.
  intros Hsilent Hin. apply in_map_iff in Hin as [[k' v] [Hk Hin]].
  cbn in Hk. subst k'. unfold _encode_params in Hin.
  apply in_flat_map in Hin as [[name p] [Hentry Hin]].
  unfold silent in Hsilent. rewrite forallb_forall in Hsilent.
  specialize (Hsilent _ Hentry). cbn [fst snd] in Hsilent, Hin.
  destruct p as [a|items].
  - apply encode_arg_keys in Hin as [Hname Ha]. cbn in Hname. subst name.
    rewrite String.eqb_refl in Hsilent. destruct a; cbn in Hsilent; congruence.
  - apply in_flat_map in Hin as [a [Hitem Hin]].
    apply encode_arg_keys in Hin as [Hname Ha]. cbn in Hname. subst name.
    rewrite String.eqb_refl in Hsilent. cbn in Hsilent.
    rewrite forallb_forall in Hsilent. specialize (Hsilent _ Hitem).
    destruct a; congruence.
Qed.

Lemma silent_merge_setting (k : string) (d : Params) :
  silent k d = true -> silent k (merge_setting (Some d)) = true.
Proof.
  unfold silent, merge_setting. rewrite !forallb_forall.
  intros Hsilent kv Hin. apply filter_In in Hin as [Hin _]. auto.
Qed.

Lemma silent_call_sound (k : string) (c : Call) :
  silent_call k c = true ->
  ~ In k (map fst (query c)) /\ ~ In k (map fst (form c)).
Proof.
  unfold silent_call, query, form. intros H.
  apply andb_true_iff in H as [Hparams Hdata]. split.
  - destruct (call_params c) as [d|]; [| cbn; tauto].
    apply silent_encode, silent_merge_setting, Hparams.
  - destruct (call_data c) as [d|]; [| cbn; tauto].
    apply silent_encode, Hdata.
Qed.

Ltac one_call :=
  apply new_calls_request_json; intros ? ?; reflexivity.

Ltac solve_silent :=
  let k := fresh "k" in
  let Hin := fresh "Hin" in
  intros k Hin; cbn [unset unset_name app] in Hin;
  repeat match goal with o : option _ |- _ => destruct o end;
  cbn in Hin;
  repeat (destruct Hin as [<-|Hin]; [reflexivity|]);
  contradiction.

(** Every method hands the session at most one call, in which each unset
    optional argument is [None] or a tuple of [None]. *)
Lemma invoke_calls (ref : Ref) (m : Method) (self : Client) :
  exists c,
    (forall k, In k (unset m) -> silent_call k c = true)
    /\ (new_calls (invoke ref m) self = []
        \/ new_calls (invoke ref m) self = [c]).
Proof.
  destruct m; cbn [invoke]; unfold_methods; cbv zeta;
    eexists;
    (split;
     [| first
          [ match goal with
            | |- context [new_calls (require_auth ?f) _] =>
                destruct (new_calls_gate f self) as [-> | [_ ->]];
                [left; reflexivity | right; one_call]
            end
          | right; one_call ]]);
    solve_silent.
Qed.

(** C6.  In every call an endpoint method hands to the session, an optional
    argument the caller left unset carries no value ([None], or a tuple of
    [None]), and its name appears neither in the query of the outgoing
    request nor in its form body. *)
Theorem unset_parameters_omitted (ref : Ref) (m : Method) (self : Client)
    (c : Call) (k : string) :
  In c (new_calls (invoke ref m) self) ->
  In k (unset m) ->
  silent_call k c = true
  /\ ~ In k (map fst (query c)) /\ ~ In k (map fst (form c)).
Proof.
  intros Hcall Hunset.
  destruct (invoke_calls ref m self) as [c0 [Hsilent [Hnone | Hone]]].
  - rewrite Hnone in Hcall. contradiction.
  - rewrite Hone in Hcall. destruct Hcall as [<- | []].
    split; [apply Hsilent, Hunset |].
    apply silent_call_sound, Hsilent, Hunset.
Qed.

Lemma following_query (visibility : Enum) :
  query (following_request visibility)
  = encode_arg "restrict" (value visibility).
Proof.
  unfold query, following_request, merge_setting, _encode_params. cbn.
  destruct (value visibility); reflexivity.
Qed.

(** C10.  [fetch_illustrations_following] does the same whatever its
    [offset] argument: on an authenticated client it hands the session the
    one call whose parameters are the [restrict] value of [visibility], and
    the query of that call never has an [offset]. *)
Theorem following_ignores_offset (ref : Ref) (visibility : Enum)
    (offset offset' : option Z) (self : Client) :
  fetch_illustrations_following ref visibility offset self
  = fetch_illustrations_following ref visibility offset' self
  /\ new_calls (fetch_illustrations_following ref visibility offset) self
     = match access_token self with
       | JNull => []
       | _ => [following_request visibility]
       end
  /\ query (following_request visibility)
     = encode_arg "restrict" (value visibility)
  /\ ~ In "offset" (map fst (query (following_request visibility))).
Proof.
  split; [reflexivity|]. split; [| split].
  - unfold fetch_illustrations_following.
    rewrite new_calls_require_auth.
    destruct (access_token self); try reflexivity; one_call.
  - apply following_query.
  - rewrite following_query. intros Hin.
    apply in_map_iff in Hin as [x [Hk Hin]].
    apply encode_arg_keys in Hin as [Hname _].
    rewrite Hname in Hk. discriminate.
Qed.

End Requests.

(** ** Back-references of the model instances *)

Section Models.
Context `{E : Env}.

Lemma exc_map_Forall {A B} (f : A -> Exc B) (P : B -> Prop) (l : list A)
    (ys : list B) :
  (forall x y, f x = inr y -> P y) -> exc_map f l = inr ys -> Forall P ys.
Proof.
  intros Hf. revert ys. induction l as [|x l IH]; cbn; intros ys Hmap.
  - injection Hmap as <-. constructor.
  - destruct (f x) as [e|y] eqn:Hx; [discriminate|]. cbn in Hmap.
    destruct (exc_map f l) as [e|ys'] eqn:Hl; [discriminate|]. cbn in Hmap.
    injection Hmap as <-. constructor; eauto.
Qed.

Lemma Forall_flat_map {A B} (P : B -> Prop) (f : A -> list B) (l : list A) :
  Forall (fun x => Forall P (f x)) l -> Forall P (flat_map f l).
Proof.
  induction 1; cbn; [constructor|]. apply Forall_app. split; assumption.
Qed.

Lemma assoc_json_kwargs (k : string) (members : list (string * JSON)) :
  assoc k (map (fun kv => (fst kv, KJson (snd kv))) members)
  = KJson <$> assoc k members.
Proof.
  induction members as [|[k' v] members IH]; cbn; [reflexivity|].
  destruct (String.eqb k k'); [reflexivity | exact IH].
Qed.

Lemma assoc_app_None {V} (k : string) (d d' : list (string * V)) :
  assoc k d = None -> assoc k (d ++ d') = assoc k d'.
Proof.
  induction d as [|[k' v] d IH]; cbn; [reflexivity|].
  destruct (String.eqb k k'); [discriminate | exact IH].
Qed.

Lemma kwargs_only_client (j : JSON) (kw : list (string * KwArg)) :
  kwargs_only j = inr kw -> client_of kw = None.
Proof.
  unfold kwargs_only. destruct j; cbn; try discriminate.
  intros H. injection H as <-. unfold client_of.
  rewrite assoc_json_kwargs. destruct (assoc "client" members); reflexivity.
Qed.

Lemma kwargs_with_client_client (j : JSON) (self : Ref)
    (kw : list (string * KwArg)) :
  kwargs_with_client j self = inr kw -> client_of kw = Some self.
Proof.
  unfold kwargs_with_client. destruct j; cbn; try discriminate.
  destruct (assoc "client" members) eqn:Hfree; [discriminate|].
  intros H. injection H as <-. unfold client_of.
  rewrite assoc_app_None; [reflexivity|].
  rewrite assoc_json_kwargs, Hfree. reflexivity.
Qed.

Lemma trending_entry_models (trending : JSON) (entry : Object) :
  trending_entry trending = inr entry ->
  Forall (fun kw => client_of kw = None) (models entry).
Proof.
  unfold trending_entry, Illustration.
  destruct (getitem trending "illust") as [e|illust]; [discriminate|]. cbn.
  destruct (kwargs_only illust) as [e|kw] eqn:Hkw; [discriminate|]. cbn.
  destruct (getitem trending "tag") as [e|tag]; [discriminate|]. cbn.
  destruct (getitem trending "translated_name") as [e|name]; [discriminate|].
  cbn. intros H. injection H as <-. cbn.
  constructor; [| constructor]. eapply kwargs_only_client, Hkw.
Qed.

Lemma illustrations_of_models (response : JSON) (key : string) (self : Ref)
    (o : Object) :
  illustrations_of response key self = inr o ->
  Forall (fun kw => client_of kw = Some self) (models o).
Proof.
  unfold illustrations_of, comprehension.
  destruct (getitem response key) as [e|l]; [discriminate|]. cbn.
  destruct (iter l) as [e|items]; [discriminate|]. cbn.
  destruct (exc_map _ items) as [e|ms] eqn:Hmap; [discriminate|]. cbn.
  intros H. injection H as <-. cbn. apply Forall_flat_map.
  eapply exc_map_Forall; [| exact Hmap].
  intros x y. unfold Illustration.
  destruct (kwargs_with_client x self) as [e|kw] eqn:Hkw; [discriminate|].
  cbn. intros Hy. injection Hy as <-. cbn.
  constructor; [| constructor]. eapply kwargs_with_client_client, Hkw.
Qed.

Lemma gated_result {A} (m : M JSON) (f : JSON -> Exc A) (self : Client)
    (a : A) :
  fst (require_auth (bind m (fun response => lift (f response))) self) = inr a ->
  exists response, f response = inr a.
Proof.
  unfold require_auth, bind, lift, raise.
  destruct (access_token self); try discriminate;
    destruct (m self) as [[e|response] self']; try discriminate;
    cbn; eauto.
Qed.

(** The sibling path: every illustration [search_illustrations] returns
    refers back to the client that fetched it. *)
Lemma search_illustrations_client (ref : Ref) word target sort duration offset
    (self : Client) (result : Object) :
  fst (search_illustrations ref word target sort duration offset self)
  = inr result ->
  Forall (fun kw => client_of kw = Some ref) (models result).
Proof.
  intros Hrun. apply gated_result in Hrun as [response Hresult].
  destruct (illustrations_of response "illusts" ref) as [e|illustrations]
    eqn:Hillusts; [discriminate|].
  cbn in Hresult.
  destruct (next_of response "offset") as [e|next] eqn:Hnext; [discriminate|].
  cbn in Hresult.
  destruct (getitem response "search_span_limit") as [e|limit];
    [discriminate|].
  cbn in Hresult. injection Hresult as <-. cbn.
  rewrite app_nil_r. apply Forall_app. split.
  - eapply illustrations_of_models, Hillusts.
  - unfold next_of in Hnext.
    destruct (getitem response "next_url") as [e|u]; [discriminate|].
    cbn in Hnext. destruct (optional_str u); [discriminate|].
    cbn in Hnext. injection Hnext as <-. constructor.
Qed.

(** C8, what the code does.  No illustration returned by
    [fetch_trending_tags] holds a reference to the client: the constructor
    is called with the fields of the response alone. *)
Theorem fetch_trending_tags_no_client (ref : Ref) (self : Client)
    (result : Object) :
  fst (fetch_trending_tags ref self) = inr result ->
  Forall (fun kw => client_of kw = None) (models result).
Proof.
  intros Hrun. apply gated_result in Hrun as [response Hresult].
  unfold comprehension in Hresult.
  destruct (getitem response "trend_tags") as [e|l]; [discriminate|].
  cbn in Hresult.
  destruct (iter l) as [e|items]; [discriminate|]. cbn in Hresult.
  destruct (exc_map trending_entry items) as [e|entries] eqn:Hentries;
    [discriminate|].
  cbn in Hresult. injection Hresult as <-. cbn. apply Forall_flat_map.
  eapply exc_map_Forall; [| exact Hentries].
  intros trending entry. apply trending_entry_models.
Qed.

End Models.

(** ** Cursor extraction *)

Section Cursor.

Lemma append_empty (s : string) : s +:+ "" = s.
Proof.
  induction s as [|a s IH]; [reflexivity|].
  change (String a (s +:+ "") = String a s). congruence.
Qed.

Lemma before_lacks (c : ascii) (s : string) : lacks c s -> before c s = s.
Proof.
  unfold lacks. induction s as [|a s IH]; simpl; [reflexivity|].
  destruct (Ascii.eqb a c); [discriminate|]. intros H. rewrite IH; auto.
Qed.

Lemma before_app (c : ascii) (s t : string) :
  lacks c s -> before c (s +:+ t) = s +:+ before c t.
Proof.
  unfold lacks. induction s as [|a s IH]; simpl; [reflexivity|].
  destruct (Ascii.eqb a c); [discriminate|]. intros H. rewrite IH; auto.
Qed.

Lemma after_app (c : ascii) (s t : string) :
  lacks c s -> after c (s +:+ t) = after c t.
Proof.
  unfold lacks. induction s as [|a s IH]; simpl; [reflexivity|].
  destruct (Ascii.eqb a c); [discriminate|]. auto.
Qed.

Lemma lacks_app (c : ascii) (s t : string) :
  lacks c s -> lacks c t -> lacks c (s +:+ t).
Proof. intros Hs Ht. unfold lacks. rewrite after_app; assumption. Qed.

Lemma lacks_cons (c a : ascii) (s : string) :
  Ascii.eqb a c = false -> lacks c s -> lacks c (String a s).
Proof. unfold lacks. cbn. intros ->. auto. Qed.

Lemma url_query_app (base q : string) :
  lacks "?" base -> lacks "#" base -> lacks "#" q ->
  url_query (base +:+ String "?" q) = q.
Proof.
  intros Hq Hf Hfq. unfold url_query.
  rewrite before_app by assumption. cbn [before].
  change (Ascii.eqb "?" "#") with false. cbv iota.
  rewrite (before_lacks _ _ Hfq), after_app by assumption.
  cbn. reflexivity.
Qed.

Lemma split_app (c : ascii) (s t : string) :
  lacks c s -> split c (s +:+ String c t) = s :: split c t.
Proof.
  unfold lacks. induction s as [|a s IH]; simpl.
  - rewrite Ascii.eqb_refl. reflexivity.
  - destruct (Ascii.eqb a c); [discriminate|]. intros H. rewrite IH; auto.
Qed.

Lemma split_join (c : ascii) (s t : string) :
  lacks c s -> split c (s +:+ String c "" +:+ t) = s :: split c t.
Proof. apply split_app. Qed.

Lemma split_lacks (c : ascii) (s : string) : lacks c s -> split c s = [s].
Proof.
  unfold lacks. induction s as [|a s IH]; simpl; [reflexivity|].
  destruct (Ascii.eqb a c); [discriminate|]. intros H. rewrite IH; auto.
Qed.

Lemma field_pair (kv : string * string) :
  plain kv ->
  before "=" (fst kv +:+ "=" +:+ snd kv) = fst kv
  /\ after "=" (fst kv +:+ "=" +:+ snd kv) = Some (snd kv)
  /\ String.eqb (fst kv +:+ "=" +:+ snd kv) "" = false
  /\ lacks "&" (fst kv +:+ "=" +:+ snd kv)
  /\ lacks "#" (fst kv +:+ "=" +:+ snd kv).
Proof.
  intros (Hne & Hamp & Heq & Hhash & Hvamp & Hvhash).
  repeat split.
  - rewrite before_app by assumption. simpl. apply append_empty.
  - rewrite after_app by assumption. reflexivity.
  - destruct (fst kv); [congruence | reflexivity].
  - apply lacks_app; [assumption|]. apply lacks_cons; [reflexivity | assumption].
  - apply lacks_app; [assumption|]. apply lacks_cons; [reflexivity | assumption].
Qed.

Lemma lacks_urlencode (c : ascii) (pairs : list (string * string)) :
  Ascii.eqb "&" c = false ->
  Forall (fun kv => lacks c (fst kv +:+ "=" +:+ snd kv)) pairs ->
  lacks c (urlencode pairs).
Proof.
  intros Hc. unfold urlencode.
  induction 1 as [|kv pairs Hkv Hrest IH]; cbn [map String.concat];
    [reflexivity|].
  destruct pairs as [|kv' pairs]; [exact Hkv|].
  cbn [map]. cbn [map] in IH.
  apply lacks_app; [exact Hkv|]. apply lacks_cons; [exact Hc | exact IH].
Qed.

(** Decoding the query string of encoded pairs gives the pairs back. *)
Lemma query_pairs_urlencode (pairs : list (string * string)) :
  Forall plain pairs -> query_pairs (urlencode pairs) = pairs.
Proof.
  unfold query_pairs, urlencode.
  induction 1 as [|kv pairs Hkv Hrest IH]; [reflexivity|].
  destruct (field_pair kv Hkv) as (Hb & Ha & Hne & Hamp & _).
  cbn [map String.concat].
  destruct pairs as [|kv' pairs].
  - rewrite split_lacks by assumption. cbn [List.filter map].
    rewrite Hne. cbn [negb map]. rewrite Hb, Ha. cbn. destruct kv; reflexivity.
  - cbn [map] in *. rewrite split_join by assumption.
    cbn [List.filter]. rewrite Hne. cbn [negb map].
    rewrite Hb, Ha. cbn [default]. rewrite IH. destruct kv; reflexivity.
Qed.

Lemma assoc_None {V} (k : string) (d : list (string * V)) :
  assoc k d = None <-> ~ In k (map fst d).
Proof.
  induction d as [|[k' v] d IH]; cbn; [tauto|].
  destruct (String.eqb_spec k k') as [->|Hne].
  - split; [discriminate | intros H; exfalso; apply H; left; reflexivity].
  - rewrite IH. split; [intros H [Heq|Hin]; [congruence | tauto] | tauto].
Qed.

(** C7.  [parse_qs] returns the value of the named query parameter of a
    next-page URL: 30 for the parameter [offset] of a URL that ends in
    [?offset=30&foo=bar], and for any URL the value of the first pair of its
    query string with that name, as a number when it looks like one; it
    returns [None] when the URL is [None] and when the query string has no
    pair with that name. *)
Theorem parse_qs_cursor :
  (forall base, lacks "?" base -> lacks "#" base ->
     parse_qs (Some (base +:+ "?offset=30&foo=bar")) "offset" = Some (JInt 30))
  /\ (forall param, parse_qs None param = None)
  /\ (forall url param,
        ~ In param (map fst (query_pairs (url_query url))) ->
        parse_qs (Some url) param = None)
  /\ (forall base pairs param,
        lacks "?" base -> lacks "#" base -> Forall plain pairs ->
        parse_qs (Some (base +:+ "?" +:+ urlencode pairs)) param
        = numeric <$> assoc param pairs).
Proof.
  split; [| split; [| split]].
  - intros base Hq Hf. unfold parse_qs.
    rewrite (url_query_app base "offset=30&foo=bar" Hq Hf) by reflexivity.
    reflexivity.
  - intros param. reflexivity.
  - intros url param Habsent. unfold parse_qs.
    apply assoc_None in Habsent. rewrite Habsent. reflexivity.
  - intros base pairs param Hq Hf Hplain. unfold parse_qs.
    change (base +:+ "?" +:+ urlencode pairs)
      with (base +:+ String "?" (urlencode pairs)).
    rewrite url_query_app; try assumption.
    + rewrite query_pairs_urlencode by assumption. reflexivity.
    + apply lacks_urlencode; [reflexivity|].
      eapply Forall_impl; [exact Hplain |].
      intros kv Hkv. apply (field_pair kv Hkv).
Qed.

End Cursor.

(** ** The endpoint methods, one and all *)

Section Shape.
Context `{E : Env}.

Lemma exc_bind_inr {A B} (m : Exc A) (k : A -> Exc B) (b : B) :
  exc_bind m k = inr b -> exists a, m = inr a /\ k a = inr b.
Proof. destruct m as [e'|a]; cbn; intros H; [discriminate | eauto]. Qed.

Lemma body_run method url params hdrs data (f : JSON -> Exc Object)
    (self : Client) :
  bind (_request_json method url params hdrs data) (fun r => lift (f r)) self
  = (answer (mkCall method url params hdrs data) f self,
     recorded (mkCall method url params hdrs data) self).
Proof.
  unfold bind, answer. rewrite _request_json_run.
  destruct (session_request _ _) as [|r]; [reflexivity|].
  destruct (status_code r / 100 =? 4)%Z; [reflexivity|].
  destruct (json_loads (text r)); reflexivity.
Qed.

Lemma gated_run method url params hdrs data (f : JSON -> Exc Object)
    (self : Client) :
  require_auth
    (bind (_request_json method url params hdrs data) (fun r => lift (f r)))
    self
  = if true && is_null (access_token self)
    then (inl AuthenticationRequired, self)
    else (answer (mkCall method url params hdrs data) f self,
          recorded (mkCall method url params hdrs data) self).
Proof.
  unfold require_auth. rewrite body_run.
  destruct (access_token self); reflexivity.
Qed.

Lemma ungated_run method url params hdrs data (f : JSON -> Exc Object)
    (self : Client) :
  bind (_request_json method url params hdrs data) (fun r => lift (f r)) self
  = if false && is_null (access_token self)
    then (inl AuthenticationRequired, self)
    else (answer (mkCall method url params hdrs data) f self,
          recorded (mkCall method url params hdrs data) self).
Proof. apply body_run. Qed.

Lemma Illustration_client j (ref : Ref) o :
  Illustration j (Some ref) = inr o ->
  Forall (fun kw => client_of kw = Some ref) (models o).
Proof.
  unfold Illustration. intros H.
  apply exc_bind_inr in H as [kw [Hkw H]]. injection H as <-. cbn.
  constructor; [| constructor]. eapply kwargs_with_client_client, Hkw.
Qed.

Lemma Comment_client j (ref : Ref) o :
  Comment j (Some ref) = inr o ->
  Forall (fun kw => client_of kw = Some ref) (models o).
Proof.
  unfold Comment. intros H.
  apply exc_bind_inr in H as [kw [Hkw H]]. injection H as <-. cbn.
  constructor; [| constructor]. eapply kwargs_with_client_client, Hkw.
Qed.

Lemma comprehension_models (P : list (string * KwArg) -> Prop)
    (f : JSON -> Exc Object) j os :
  (forall x o, f x = inr o -> Forall P (models o)) ->
  comprehension f j = inr os -> Forall P (flat_map models os).
Proof.
  intros Hf H. unfold comprehension in H.
  apply exc_bind_inr in H as [items [_ H]].
  apply Forall_flat_map. eapply exc_map_Forall; [| exact H]. exact Hf.
Qed.

Lemma next_of_models response param o :
  next_of response param = inr o -> models o = [].
Proof.
  unfold next_of. intros H.
  apply exc_bind_inr in H as [u [_ H]].
  apply exc_bind_inr in H as [url [_ H]]. injection H as <-. reflexivity.
Qed.

Ltac leaf_models :=
  match goal with
  | H : illustrations_of _ _ _ = inr ?o |- Forall _ (models ?o) =>
      eapply illustrations_of_models, H
  | H : next_of _ _ = inr ?o |- Forall _ (models ?o) =>
      rewrite (next_of_models _ _ _ H); constructor
  | H : Illustration _ (Some _) = inr ?o |- Forall _ (models ?o) =>
      eapply Illustration_client, H
  | H : comprehension _ _ = inr ?os |- Forall _ (flat_map models ?os) =>
      eapply comprehension_models; [| exact H];
      intros ? ?; apply Comment_client
  | |- Forall _ [] => constructor
  end.

Ltac refers_client :=
  let r := fresh "r" in
  let o := fresh "o" in
  let H := fresh "H" in
  intros _ r o H;
  repeat match type of H with
         | exc_bind _ _ = inr _ =>
             apply exc_bind_inr in H; destruct H as [? [? H]]
         end;
  first [ leaf_models
        | injection H as <-; cbn [models flat_map snd app];
          repeat (apply Forall_app; split); leaf_models ].

Lemma invoke_run (ref : Ref) (m : Method) :
  exists c f,
    (forall self,
       invoke ref m self
       = if requires_auth m && is_null (access_token self)
         then (inl AuthenticationRequired, self)
         else (answer c f self, recorded c self))
    /\ api_call c = true
    /\ (m <> FetchTrendingTags -> refers ref f).
Proof.
  destruct m; cbn [invoke requires_auth]; unfold_methods; cbv zeta;
    eexists; eexists;
    (split; [intros self; first [ apply gated_run | apply ungated_run ] |]);
    (split; [reflexivity |]).
  all: try (intros Hne; contradiction).
  all: refers_client.
Qed.

Lemma new_calls_recorded {A} (m : M A) (c : Call) (self : Client) :
  snd (m self) = recorded c self -> new_calls m self = [c].
Proof.
  intros H. unfold new_calls. rewrite H. cbn [recorded session calls].
  apply drop_app_length.
Qed.


(** X2.  Every endpoint method passes on what [_request_json] raises: a
    transport failure surfaces as [RequestException], a 4xx answer as
    [BadApiResponse] with the status and the body, and a body that does not
    decode as [BadApiResponse] without arguments. *)
Theorem endpoint_passes_errors (ref : Ref) (m : Method) (self : Client)
    (c : Call) :
  In c (new_calls (invoke ref m) self) ->
  match session_request (session self) c with
  | Fails => fst (invoke ref m self) = inl RequestException
  | Replies r =>
      (status_code r / 100 = 4 ->
       fst (invoke ref m self) = inl (status_error r))
      /\ (status_code r / 100 <> 4 -> json_loads (text r) = None ->
          fst (invoke ref m self) = inl (BadApiResponse []))
  end.
Proof.
  destruct (invoke_run ref m) as (c0 & f & Hrun & _).
  pose proof (Hrun self) as Hself.
  destruct (requires_auth m && is_null (access_token self)).
  - rewrite new_calls_unchanged by (rewrite Hself; reflexivity).
    contradiction.
  - rewrite (new_calls_recorded _ c0) by (rewrite Hself; reflexivity).
    intros [<- | []]. rewrite Hself. cbn [fst]. unfold answer.
    destruct (session_request (session self) c0) as [|r]; [reflexivity|].
    destruct (Z.eqb_spec (status_code r / 100) 4) as [H4|H4].
    + split; [reflexivity | contradiction].
    + split; [contradiction |]. intros _ ->. reflexivity.
Qed.


Lemma encode_params_keys (d : Params) (k : string) :
  In k (map fst (_encode_params d)) -> In k (map fst d).
Proof.
  intros Hin. apply in_map_iff in Hin as [[k' v] [Hk Hin]].
  cbn in Hk. subst k'. unfold _encode_params in Hin.
  apply in_flat_map in Hin as [[name p] [Hentry Hin]]. cbn [fst snd] in Hin.
  assert (name = k) as <-.
  { destruct p as [a|items].
    - apply encode_arg_keys in Hin as [Hname _]. symmetry. exact Hname.
    - apply in_flat_map in Hin as [a [_ Hin]].
      apply encode_arg_keys in Hin as [Hname _]. symmetry. exact Hname. }
  apply in_map_iff. exists (name, p). split; [reflexivity | exact Hentry].
Qed.

Lemma query_form_keys (c : Call) (k : string) :
  In k (map fst (query c)) \/ In k (map fst (form c)) -> In k (call_keys c).
Proof.
  unfold query, form, call_keys, merge_setting. intros [Hin|Hin].
  - apply in_or_app. left. destruct (call_params c) as [d|]; [| contradiction].
    apply encode_params_keys in Hin. cbn [default].
    apply in_map_iff in Hin as [kv [Hk Hin]]. apply filter_In in Hin as [Hin _].
    apply in_map_iff. eauto.
  - apply in_or_app. right. destruct (call_data c) as [d|]; [| contradiction].
    apply encode_params_keys, Hin.
Qed.

(** X12.  A call made by an endpoint method has no headers of its own,
    goes to a path of the API host and never to the token URL, is a [get]
    without form body or a [post] without query, and carries none of the
    fields of the token request in its query or its form. *)
Theorem endpoint_calls_api (ref : Ref) (m : Method) (self : Client)
    (c : Call) :
  In c (new_calls (invoke ref m) self) ->
  call_headers c = None
  /\ String.prefix (BASE_URL +:+ "/v") (call_url c) = true
  /\ call_url c <> AUTH_URL
  /\ (call_method c = "get" /\ call_data c = None
      \/ call_method c = "post" /\ call_params c = None)
  /\ forall k, In k credential_keys ->
       ~ In k (map fst (query c)) /\ ~ In k (map fst (form c)).
Proof.
  destruct (invoke_run ref m) as (c0 & f & Hrun & Hapi & _).
  pose proof (Hrun self) as Hself.
  destruct (requires_auth m && is_null (access_token self)).
  { rewrite new_calls_unchanged by (rewrite Hself; reflexivity).
    contradiction. }
  rewrite (new_calls_recorded _ c0) by (rewrite Hself; reflexivity).
  intros [<- | []]. unfold api_call in Hapi.
  apply andb_true_iff in Hapi as [Hapi Hkeys].
  apply andb_true_iff in Hapi as [Hapi Hverb].
  apply andb_true_iff in Hapi as [Hheaders Hprefix].
  split; [destruct (call_headers c0); [discriminate | reflexivity] |].
  split; [exact Hprefix |].
  split.
  { intros Hurl. rewrite Hurl in Hprefix. discriminate Hprefix. }
  split.
  { destruct (call_data c0), (call_params c0); try discriminate Hverb;
      apply String.eqb_eq in Hverb; auto. }
  intros k Hk. rewrite forallb_forall in Hkeys. specialize (Hkeys k Hk).
  apply negb_true_iff in Hkeys.
  assert (~ In k (call_keys c0)) as Habsent.
  { intros Hin. apply not_true_iff_false in Hkeys. apply Hkeys.
    apply existsb_exists. exists k. split; [exact Hin | apply String.eqb_refl]. }
  split; intros Hin; apply Habsent, query_form_keys; auto.
Qed.

(** X4.  Every model instance returned by an endpoint method other than
    [fetch_trending_tags] refers back to the client that fetched it. *)
Theorem models_refer_to_client (ref : Ref) (m : Method) (self : Client)
    (result : Object) :
  m <> FetchTrendingTags ->
  fst (invoke ref m self) = inr result ->
  Forall (fun kw => client_of kw = Some ref) (models result).
Proof.
  intros Hne. destruct (invoke_run ref m) as (c & f & Hrun & _ & Hrefers).
  rewrite Hrun.
  destruct (requires_auth m && is_null (access_token self)); [discriminate|].
  cbn [fst]. unfold answer.
  destruct (session_request (session self) c) as [|r]; [discriminate|].
  destruct (status_code r / 100 =? 4)%Z; [discriminate|].
  destruct (json_loads (text r)) as [j|]; [| discriminate].
  apply (Hrefers Hne).
Qed.
End Shape.

(** ** The token exchange, beyond its outcome *)

Section Exchange.
Context `{E : Env}.

Lemma exchange_calls (g : Grant) (self : Client) :
  calls (session (snd (exchange g self)))
  = calls (session self) ++ [token_request self g].
Proof.
  rewrite exchange_run. cbv zeta.
  destruct (token_reply self g) as [e|j]; [reflexivity|].
  destruct (getitem2 j "response" "user") as [e|user]; [reflexivity|].
  destruct (getitem2 j "response" "access_token") as [e|access];
    [reflexivity|].
  destruct (getitem2 j "response" "refresh_token") as [e|refresh];
    reflexivity.
Qed.

(** X5.  [login] and [authenticate] hand the session exactly one call,
    whatever comes back: a [post] to the token URL without headers or query,
    whose form is the client id, the client secret and [get_secure_url=1]
    followed by the fields of the grant, in this order. *)
Theorem exchange_request (g : Grant) (self : Client) :
  new_calls (exchange g) self = [token_request self g]
  /\ call_method (token_request self g) = "post"
  /\ call_url (token_request self g) = AUTH_URL
  /\ call_headers (token_request self g) = None
  /\ query (token_request self g) = []
  /\ form (token_request self g)
     = [("client_id", client_id self);
        ("client_secret", client_secret self);
        ("get_secure_url", "1")] ++ grant_fields g.
Proof.
  split.
  { unfold new_calls. rewrite exchange_calls. apply drop_app_length. }
  repeat split. destruct g; reflexivity.
Qed.

Lemma header_get_set_ne (k k' v : string) (h : gmap string (string * string)) :
  lower k <> lower k' -> header_get k (header_set k' v h) = header_get k h.
Proof.
  intros Hne. unfold header_get, header_set.
  rewrite lookup_insert_ne by congruence. reflexivity.
Qed.

(** X6.  Whatever its outcome, the exchange leaves the configuration of the
    client alone and changes no session header other than
    [Authorization]. *)
Theorem exchange_frame (g : Grant) (self : Client) :
  let self' := snd (exchange g self) in
  language self' = language self
  /\ client_id self' = client_id self
  /\ client_secret self' = client_secret self
  /\ forall k, lower k <> "authorization" ->
       header_get k (headers (session self'))
       = header_get k (headers (session self)).
Proof.
  cbv zeta. rewrite exchange_run. cbv zeta.
  destruct (token_reply self g) as [e|j]; [repeat split|].
  destruct (getitem2 j "response" "user") as [e|user]; [repeat split|].
  destruct (getitem2 j "response" "access_token") as [e|access];
    [repeat split|].
  destruct (getitem2 j "response" "refresh_token") as [e|refresh];
    [repeat split|].
  repeat split. intros k Hk. cbn [snd session headers].
  apply header_get_set_ne. exact Hk.
Qed.

Lemma getitem_not_object (j : JSON) (k : string) :
  is_object j = false -> getitem j k = inl TypeError.
Proof. destruct j; cbn; congruence. Qed.

(** X7.  When the decoded body of the token response is not a dict, or its
    [response] entry is not one, [login] and [authenticate] raise
    [TypeError], not [LoginError], and only the recorded call changes the
    client. *)
Theorem exchange_type_error (g : Grant) (self : Client) (j : JSON) :
  token_reply self g = inr j ->
  is_object j = false
  \/ (exists x, getitem j "response" = inr x /\ is_object x = false) ->
  exchange g self = (inl TypeError, recorded (token_request self g) self).
Proof.
  intros Hreply Hshape. rewrite exchange_run, Hreply. cbv zeta.
  assert (getitem2 j "response" "user" = inl TypeError) as ->.
  { unfold getitem2. destruct Hshape as [Hj | [x [Hx Hobj]]].
    - rewrite (getitem_not_object _ _ Hj). reflexivity.
    - rewrite Hx. cbn. apply getitem_not_object, Hobj. }
  reflexivity.
Qed.

(** X8.  A token response with [user] but no [access_token] fails with
    [LoginError] having replaced [account] alone; one with [user] and
    [access_token] but no [refresh_token] fails having replaced [account]
    and [access_token], while [refresh_token] and the session headers, so
    the [Authorization] header in force, stay as they were. *)
Theorem exchange_partial_commit (g : Grant) (self : Client) (j user : JSON)
    (key : string) :
  token_reply self g = inr j ->
  getitem2 j "response" "user" = inr user ->
  (getitem2 j "response" "access_token" = inl (KeyError key) ->
   exchange g self
   = (inl LoginError,
      mkClient (language self) (client_id self) (client_secret self)
        (Some (mkStruct user)) (access_token self) (refresh_token self)
        (mkSession (headers (session self))
           (calls (session self) ++ [token_request self g]))))
  /\ (forall access,
        getitem2 j "response" "access_token" = inr access ->
        getitem2 j "response" "refresh_token" = inl (KeyError key) ->
        exchange g self
        = (inl LoginError,
           mkClient (language self) (client_id self) (client_secret self)
             (Some (mkStruct user)) access (refresh_token self)
             (mkSession (headers (session self))
                (calls (session self) ++ [token_request self g])))).
Proof.
  intros Hreply Huser. rewrite exchange_run, Hreply, Huser. cbv zeta. split.
  - intros ->. reflexivity.
  - intros access -> ->. reflexivity.
Qed.

End Exchange.

(** ** Any sequence of uses *)

Section Usage.
Context `{E : Env}.

Lemma exchange_state (g : Grant) (self : Client) :
  exists a t r v,
    snd (exchange g self)
    = mkClient (language self) (client_id self) (client_secret self) a t r
        (mkSession
           (match v with
            | Some x => header_set "Authorization" x (headers (session self))
            | None => headers (session self)
            end)
           (calls (session self) ++ [token_request self g]))
    /\ (a = None ->
        a = account self /\ t = access_token self /\ r = refresh_token self).
Proof.
  rewrite exchange_run. cbv zeta.
  destruct (token_reply self g) as [e|j].
  { exists (account self), (access_token self), (refresh_token self), None.
    split; [reflexivity | auto]. }
  destruct (getitem2 j "response" "user") as [e|user].
  { exists (account self), (access_token self), (refresh_token self), None.
    split; [reflexivity | auto]. }
  destruct (getitem2 j "response" "access_token") as [e|access].
  { exists (Some (mkStruct user)), (access_token self), (refresh_token self),
      None.
    split; [reflexivity | discriminate]. }
  destruct (getitem2 j "response" "refresh_token") as [e|refresh].
  { exists (Some (mkStruct user)), access, (refresh_token self), None.
    split; [reflexivity | discriminate]. }
  exists (Some (mkStruct user)), access, refresh,
    (Some ("Bearer " +:+ str access)).
  split; [reflexivity | discriminate].
Qed.

Lemma invoke_state (ref : Ref) (m : Method) (self : Client) :
  snd (invoke ref m self) = self
  \/ exists c, snd (invoke ref m self) = recorded c self.
Proof.
  destruct (invoke_run ref m) as (c & f & Hrun & _). rewrite Hrun.
  destruct (requires_auth m && is_null (access_token self)); eauto.
Qed.

Lemma step_kept lang id secret (op : Op) (self : Client) :
  kept lang id secret self ->
  kept lang id secret (step op self)
  /\ (length (calls (session (step op self)))
      <= S (length (calls (session self))))%nat.
Proof.
  intros (Hl & Hi & Hs & Hh & Ha). destruct op as [g | ref m]; cbn [step].
  - destruct (exchange_state g self) as (a & t & r & v & -> & Hnone).
    cbn [language client_id client_secret session headers calls account
         access_token refresh_token].
    split.
    + split; [exact Hl|]. split; [exact Hi|]. split; [exact Hs|]. split.
      * intros Hne. destruct v as [x|]; simpl; [| auto].
        rewrite header_get_set_ne by discriminate. auto.
      * simpl. intros Hnone'. destruct (Hnone Hnone') as (Hacc & -> & ->).
        apply Ha. congruence.
    + rewrite length_app. cbn. lia.
  - destruct (invoke_state ref m self) as [-> | [c ->]].
    + split; [exact (conj Hl (conj Hi (conj Hs (conj Hh Ha)))) | lia].
    + split; [exact (conj Hl (conj Hi (conj Hs (conj Hh Ha)))) |].
      simpl. rewrite length_app. cbn. lia.
Qed.

Lemma init_kept lang id secret : kept lang id secret (__init__ lang id secret).
Proof.
  unfold __init__. repeat split. intros Hne. cbn [session headers].
  destruct (String.eqb_spec lang "") as [Heq|_]; [contradiction|].
  cbn [headers_update fold_left fst snd]. unfold header_get, header_set.
  rewrite lookup_insert_eq. reflexivity.
Qed.

Lemma run_kept lang id secret (ops : list Op) (self : Client) :
  kept lang id secret self ->
  kept lang id secret (run ops self)
  /\ (length (calls (session (run ops self)))
      <= length (calls (session self)) + length ops)%nat.
Proof.
  revert self. induction ops as [|op ops IH]; intros self Hkept.
  - split; [exact Hkept | cbn; lia].
  - cbn [run fold_left]. destruct (step_kept _ _ _ op self Hkept) as [Hstep Hlen].
    destruct (IH _ Hstep) as [Hrun Hcalls]. split; [exact Hrun|].
    unfold run in Hcalls. cbn [length]. lia.
Qed.

(** X9.  After any sequence of logins, refreshes and endpoint calls on a
    client just constructed, the configuration is as given, a non-empty
    language is still the [Accept-Language] header, a client without
    [account] has neither token, and the session has made at most one call
    per use. *)
Theorem usage_invariants (lang id secret : string) (ops : list Op) :
  let self := run ops (__init__ lang id secret) in
  language self = lang /\ client_id self = id /\ client_secret self = secret
  /\ (lang <> "" ->
      header_get "Accept-Language" (headers (session self)) = Some lang)
  /\ (account self = None ->
      access_token self = JNull /\ refresh_token self = JNull)
  /\ (length (calls (session self)) <= length ops)%nat.
Proof.
  cbv zeta.
  destruct (run_kept lang id secret ops (__init__ lang id secret)
              (init_kept lang id secret))
    as ((Hl & Hi & Hs & Hh & Ha) & Hcalls).
  split; [exact Hl|]. split; [exact Hi|]. split; [exact Hs|].
  split; [exact Hh|]. split; [exact Ha|]. exact Hcalls.
Qed.

End Usage.

(** ** The guard on a used client *)

Section Tokenless.
Context `{E : Env}.



End Tokenless.


(** ** Particular methods *)

Section More.
Context `{E : Env}.

Lemma bookmark_run (ref : Ref) (m : Method) :
  writes_bookmark m = true ->
  exists c, forall self,
    invoke ref m self
    = if is_null (access_token self)
      then (inl AuthenticationRequired, self)
      else (answer c (fun _ => inr (OJson JNull)) self, recorded c self).
Proof.
  destruct m; try discriminate; intros _; cbn [invoke];
    unfold add_bookmark, delete_bookmark; eexists; intros self;
    apply gated_run.
Qed.

(** X10.  [add_bookmark] and [delete_bookmark] succeed on an answer outside
    4xx exactly when its body decodes as JSON: an empty acknowledgement
    raises [BadApiResponse] although the request was sent. *)
Theorem bookmark_write_needs_json (ref : Ref) (m : Method) (self : Client)
    (c : Call) (r : Response) :
  writes_bookmark m = true ->
  In c (new_calls (invoke ref m) self) ->
  session_request (session self) c = Replies r ->
  status_code r / 100 <> 4 ->
  (fst (invoke ref m self) = inr (OJson JNull) <-> json_loads (text r) <> None)
  /\ (text r = "" -> fst (invoke ref m self) = inl (BadApiResponse [])).
Proof.
  intros Hm Hcall Hreply Hstatus.
  destruct (bookmark_run ref m Hm) as [c0 Hrun].
  pose proof (Hrun self) as Hself.
  destruct (is_null (access_token self)).
  { rewrite new_calls_unchanged in Hcall by (rewrite Hself; reflexivity).
    contradiction. }
  rewrite (new_calls_recorded _ c0) in Hcall by (rewrite Hself; reflexivity).
  destruct Hcall as [<- | []]. rewrite Hself. cbn [fst]. unfold answer.
  rewrite Hreply.
  destruct (Z.eqb_spec (status_code r / 100) 4) as [H4|_]; [contradiction|].
  destruct (json_loads (text r)) as [j|] eqn:Hbody.
  - split; [split; [discriminate | reflexivity] |].
    intros Hempty. rewrite Hempty, json_loads_empty in Hbody. discriminate.
  - split; [split; [discriminate | congruence] | reflexivity].
Qed.

(** X11.  The query of [fetch_illustrations_recommended] has the bookmark
    ids as one comma-joined value when the list is non-empty and not at all
    when it is empty or [None]; it has [min_bookmark_id_for_recent_illust]
    once, in decimal, when that argument is set. *)
Theorem recommended_bookmark_ids (ref : Ref) content_type ranking
    (max_id min_id offset : option Z) (ids : option (list Z)) label
    (self : Client) (c : Call) :
  In c (new_calls
          (fetch_illustrations_recommended ref content_type ranking max_id
             min_id offset ids label) self) ->
  values_of "bookmark_illust_ids" (query c)
  = match ids with
    | None | Some [] => []
    | Some ids => [String.concat "," (map pretty ids)]
    end
  /\ values_of "min_bookmark_id_for_recent_illust" (query c)
     = match min_id with
       | None => []
       | Some z => [pretty z]
       end.
Proof.
  unfold fetch_illustrations_recommended. cbv zeta.
  rewrite new_calls_require_auth.
  destruct (access_token self); try contradiction;
    rewrite new_calls_request_json by (intros ? ?; reflexivity);
    intros [<- | []];
    destruct (value content_type), max_id, min_id, offset,
      ids as [[|id ids]|]; split; reflexivity.
Qed.
End More.

Section Keys.
Context `{E : Env}.

Lemma gated_answer method url params hdrs data (f : JSON -> Exc Object)
    (self : Client) (c : Call) :
  In c (new_calls
          (require_auth
             (bind (_request_json method url params hdrs data)
                (fun r => lift (f r)))) self) ->
  c = mkCall method url params hdrs data
  /\ fst (require_auth
            (bind (_request_json method url params hdrs data)
               (fun r => lift (f r))) self)
     = answer c f self.
Proof.
  intros Hcall. pose proof (gated_run method url params hdrs data f self) as Hrun.
  destruct (true && is_null (access_token self)).
  - rewrite new_calls_unchanged in Hcall by (rewrite Hrun; reflexivity).
    contradiction.
  - rewrite (new_calls_recorded _ (mkCall method url params hdrs data)) in Hcall
      by (rewrite Hrun; reflexivity).
    destruct Hcall as [<- | []]. rewrite Hrun. split; reflexivity.
Qed.

(** X13.  When an answer outside 4xx decodes to a dict without the key a
    method reads first, the method raises [KeyError] for that key. *)
Theorem endpoint_missing_key (ref : Ref) (m : Method) (key : string)
    (self : Client) (c : Call) (r : Response)
    (members : list (string * JSON)) :
  first_key m = Some key ->
  In c (new_calls (invoke ref m) self) ->
  session_request (session self) c = Replies r ->
  status_code r / 100 <> 4 ->
  json_loads (text r) = Some (JObj members) ->
  assoc key members = None ->
  fst (invoke ref m self) = inl (KeyError key).
Proof.
  intros Hkey Hcall Hreply Hstatus Hbody Hmissing.
  destruct m; try discriminate Hkey; injection Hkey as <-;
    revert Hcall; cbn [invoke]; unfold_methods; cbv zeta; intros Hcall;
    apply gated_answer in Hcall as [-> ->];
    unfold answer; rewrite Hreply;
    (destruct (Z.eqb_spec (status_code r / 100) 4) as [H4|_];
     [contradiction|]);
    rewrite Hbody; unfold illustrations_of; cbn [getitem exc_bind];
    rewrite Hmissing; reflexivity.
Qed.
End Keys.

(** ** The exchange and the status code *)

Section Status.

(** X14.  The exchange never looks at the status code: two token responses
    whose bodies decode alike give the same outcome and the same client,
    whatever their status codes. *)
Theorem exchange_ignores_status (E1 E2 : Env) (g : Grant) (self : Client)
    (r1 r2 : Response) :
  @session_request E1 (session self) (token_request self g) = Replies r1 ->
  @session_request E2 (session self) (token_request self g) = Replies r2 ->
  @json_loads E1 (text r1) = @json_loads E2 (text r2) ->
  (forall j, @py_repr E1 j = @py_repr E2 j) ->
  @exchange E1 g self = @exchange E2 g self.
Proof.
  intros H1 H2 Hbody Hrepr.
  rewrite (exchange_run (E := E1)), (exchange_run (E := E2)). cbv zeta.
  unfold token_reply. rewrite H1, H2, Hbody.
  destruct (@json_loads E2 (text r2)) as [j|]; [| reflexivity].
  destruct (getitem2 j "response" "user") as [e|user]; [reflexivity|].
  destruct (getitem2 j "response" "access_token") as [e|access];
    [reflexivity|].
  destruct (getitem2 j "response" "refresh_token") as [e|refresh];
    [reflexivity|].
  assert (@str E1 access = @str E2 access) as ->; [| reflexivity].
  unfold str, str_with. destruct access; try reflexivity; apply Hrepr.
Qed.
End Status.


(** * The properties at work in the scripted environment *)

(** C1, as stated, fails.  Bob's response has [user] and [access_token] but
    no [refresh_token]: the login raises [LoginError], yet [account] and
    [access_token] now hold the values of that response. *)
Lemma login_commits_partial_state :
  let run := @login Scripted.env "bob" "pw" Scripted.fresh in
  fst run = inl LoginError
  /\ account Scripted.fresh = None
  /\ account (snd run)
     = Some (mkStruct (JObj [("id", JInt 8); ("name", JStr "bob")]))
  /\ access_token Scripted.fresh = JNull
  /\ access_token (snd run) = JStr "at-2"
  /\ ~ (forall (E : Env) (g : Grant) (self : Client) (e : Exception),
          fst (exchange g self) = inl e ->
          access_token (snd (exchange g self)) = access_token self
          /\ refresh_token (snd (exchange g self)) = refresh_token self
          /\ account (snd (exchange g self)) = account self).
Proof.
  cbv zeta. repeat split; try (vm_compute; reflexivity).
  intros Hclaim.
  destruct (Hclaim Scripted.env (Password "bob" "pw") Scripted.fresh LoginError)
    as [Htoken _].
  - vm_compute. reflexivity.
  - vm_compute in Htoken. discriminate Htoken.
Qed.

Lemma exchange_failure_state_witness :
  let self' := snd (@exchange Scripted.env (Password "carol" "pw")
                      Scripted.fresh) in
  refresh_token self' = refresh_token Scripted.fresh
  /\ account self' = account Scripted.fresh
  /\ access_token self' = access_token Scripted.fresh.
Proof.
  cbv zeta.
  destruct (exchange_failure_state (E := Scripted.env) (Password "carol" "pw")
              Scripted.fresh LoginError)
    as (Hrefresh & _ & Hearly & _).
  - vm_compute. reflexivity.
  - split; [exact Hrefresh|]. apply Hearly.
    intros j user Hreply. vm_compute in Hreply. discriminate Hreply.
Defined.

Lemma request_json_status_witness :
  fst (@_request_json Scripted.env "get" (BASE_URL +:+ "/v1/user/detail")
         (Some [("user_id", One (AInt 404)); ("filter", One (AStr FILTER))])
         None None Scripted.fresh)
  = inl (BadApiResponse ["Status code: 404"; "Not Found"]).
Proof.
  refine (proj2 (proj1 (request_json_status (E := Scripted.env)
                          _ _ _ _ _ _ (mkResponse 404 "Not Found") _ _)) _).
  - vm_compute. reflexivity.
  - cbn. lia.
  - vm_compute. reflexivity.
Defined.

Lemma request_json_body_witness :
  fst (@_request_json Scripted.env "get" (BASE_URL +:+ "/v1/user/detail")
         (Some [("user_id", One (AInt 1)); ("filter", One (AStr FILTER))])
         None None Scripted.fresh)
  = inl (BadApiResponse [])
  /\ fst (@_request_json Scripted.env "get"
            (BASE_URL +:+ "/v1/trending-tags/illust")
            (Some [("filter", One (AStr FILTER))]) None None Scripted.fresh)
     = inr Scripted.trending.
Proof.
  split.
  - refine (proj2 (proj1 (request_json_body (E := Scripted.env)
                            _ _ _ _ _ _ (mkResponse 200 "not json") _ _)) _).
    + vm_compute. reflexivity.
    + vm_compute. discriminate.
    + vm_compute. reflexivity.
  - refine (proj2 (proj2 (request_json_body (E := Scripted.env)
                            _ _ _ _ _ _
                            (mkResponse 200 (Scripted.dumps Scripted.trending))
                            _ _))
              _ _).
    + vm_compute. reflexivity.
    + vm_compute. discriminate.
    + vm_compute. reflexivity.
Defined.

Lemma require_auth_gate_witness :
  @invoke Scripted.env 0%nat FetchTrendingTags Scripted.fresh
  = (inl AuthenticationRequired, Scripted.fresh)
  /\ new_calls (@invoke Scripted.env 0%nat FetchTrendingTags) Scripted.fresh
     = [].
Proof.
  apply (require_auth_gate (E := Scripted.env) 0%nat FetchTrendingTags
           Scripted.fresh).
  - reflexivity.
  - vm_compute. reflexivity.
Defined.

Lemma exchange_success_witness :
  header_get "Authorization" (headers (session Scripted.logged_in))
  = Some "Bearer at-1"
  /\ access_token Scripted.logged_in = JStr "at-1"
  /\ refresh_token Scripted.logged_in = JStr "rt-1".
Proof.
  destruct (exchange_success (E := Scripted.env) (Password "alice" "secret")
              Scripted.fresh)
    as (j & user & access & refresh & _ & _ & _ & Hheader & Haccess & Hrefresh).
  - vm_compute. reflexivity.
  - vm_compute in Haccess. vm_compute in Hrefresh. subst access refresh.
    split; [exact (Hheader "at-1" eq_refl) |].
    split; vm_compute; reflexivity.
Defined.

Lemma unset_parameters_omitted_witness :
  let m := FetchIllustrationsRecommended (mkEnum (AStr "illust")) false
             None None None None true in
  length (new_calls (@invoke Scripted.env 5%nat m) Scripted.logged_in) = 1%nat
  /\ Forall (fun c =>
               ~ In "min_bookmark_id_for_recent_illust" (map fst (query c)))
       (new_calls (@invoke Scripted.env 5%nat m) Scripted.logged_in).
Proof.
  cbv zeta. split; [vm_compute; reflexivity |].
  apply Forall_forall. intros c Hc.
  apply list_elem_of_In in Hc.
  refine (proj1 (proj2 (unset_parameters_omitted (E := Scripted.env) 5%nat _
                          Scripted.logged_in c _ Hc _))).
  cbn. tauto.
Defined.

Lemma parse_qs_cursor_witness :
  parse_qs (Some "https://app-api.pixiv.net/x?offset=30&foo=bar") "offset"
  = Some (JInt 30)
  /\ parse_qs (Some "https://app-api.pixiv.net/x?offset=30&foo=bar") "limit"
     = None
  /\ parse_qs
       (Some "https://app-api.pixiv.net/v1/user/bookmarks/illust?user_id=7&max_bookmark_id=6268205545")
       "max_bookmark_id"
     = Some (JInt 6268205545).
Proof.
  destruct parse_qs_cursor as (Hnamed & _ & Hmissing & Hfirst).
  split; [| split].
  - apply (Hnamed "https://app-api.pixiv.net/x"); reflexivity.
  - apply Hmissing. vm_compute. intuition discriminate.
  - apply (Hfirst "https://app-api.pixiv.net/v1/user/bookmarks/illust"
             [("user_id", "7"); ("max_bookmark_id", "6268205545")]
             "max_bookmark_id"); try reflexivity.
    repeat constructor; discriminate.
Defined.

Lemma fetch_trending_tags_no_client_witness :
  let result :=
    OList [ODict [("illustration",
                   OIllustration [("id", KJson (JInt 59580629));
                                  ("title", KJson (JStr "t"))]);
                  ("tag", OJson (JStr "kancolle"));
                  ("translated_name", OJson JNull)]] in
  fst (@fetch_trending_tags Scripted.env 5%nat Scripted.logged_in) = inr result
  /\ length (models result) = 1%nat
  /\ Forall (fun kw => client_of kw = None) (models result).
Proof.
  cbv zeta. split; [vm_compute; reflexivity |].
  split; [reflexivity |].
  apply (fetch_trending_tags_no_client (E := Scripted.env) 5%nat
           Scripted.logged_in).
  vm_compute. reflexivity.
Defined.


Lemma following_ignores_offset_witness :
  let public := mkEnum (AStr "public") in
  @fetch_illustrations_following Scripted.env 5%nat public None
    Scripted.logged_in
  = @fetch_illustrations_following Scripted.env 5%nat public (Some 30)
      Scripted.logged_in
  /\ map query
       (new_calls (@fetch_illustrations_following Scripted.env 5%nat public
                     (Some 30))
          Scripted.logged_in)
     = [[("restrict", "public")]].
Proof.
  cbv zeta.
  destruct (following_ignores_offset (E := Scripted.env) 5%nat
              (mkEnum (AStr "public")) (Some 30) None Scripted.logged_in)
    as (Hsame & Hcalls & Hquery & _).
  split; [symmetry; exact Hsame |].
  rewrite Hcalls. vm_compute. reflexivity.
Defined.

(** ** The further properties at work *)

Lemma endpoint_passes_errors_witness :
  fst (@invoke Scripted.env 5%nat (FetchIllustration 1) Scripted.logged_in)
  = inl RequestException
  /\ fst (@invoke Scripted.env 5%nat (FetchUser 404) Scripted.fresh)
     = inl (BadApiResponse ["Status code: 404"; "Not Found"]).
Proof.
  split.
  - assert (In (mkCall "get" (BASE_URL +:+ "/v1/illust/detail")
                  (Some [("illust_id", One (AInt 1))]) None None)
              (new_calls (@invoke Scripted.env 5%nat (FetchIllustration 1))
                 Scripted.logged_in)) as Hin
      by (vm_compute; left; reflexivity).
    exact (endpoint_passes_errors (E := Scripted.env) _ _ _ _ Hin).
  - assert (In (mkCall "get" (BASE_URL +:+ "/v1/user/detail")
                  (Some [("user_id", One (AInt 404));
                         ("filter", One (AStr FILTER))]) None None)
              (new_calls (@invoke Scripted.env 5%nat (FetchUser 404))
                 Scripted.fresh)) as Hin
      by (vm_compute; left; reflexivity).
    pose proof (endpoint_passes_errors (E := Scripted.env) _ _ _ _ Hin) as H.
    apply (proj1 H). vm_compute. reflexivity.
Defined.

Lemma models_refer_to_client_witness :
  let run := @invoke Scripted.env 5%nat
               (SearchIllustrations "w" (mkEnum (AStr "exact_match_for_tags"))
                  (mkEnum (AStr "date_desc")) None None)
               Scripted.logged_in in
  exists result,
    fst run = inr result
    /\ length (models result) = 2%nat
    /\ Forall (fun kw => client_of kw = Some 5%nat) (models result).
Proof.
  cbv zeta. eexists. split; [vm_compute; reflexivity |].
  split; [reflexivity |].
  apply (models_refer_to_client (E := Scripted.env) 5%nat
           (SearchIllustrations "w" (mkEnum (AStr "exact_match_for_tags"))
              (mkEnum (AStr "date_desc")) None None)
           Scripted.logged_in).
  - discriminate.
  - vm_compute. reflexivity.
Defined.

Lemma exchange_type_error_witness :
  @exchange Degraded.env (Password "mallory" "pw") Scripted.fresh
  = (inl TypeError,
     recorded (token_request Scripted.fresh (Password "mallory" "pw"))
       Scripted.fresh).
Proof.
  apply (exchange_type_error (E := Degraded.env) (Password "mallory" "pw")
           Scripted.fresh JNull).
  - vm_compute. reflexivity.
  - left. reflexivity.
Defined.

Lemma exchange_partial_commit_witness :
  let self' := snd (@exchange Scripted.env (Password "bob" "pw")
                      Scripted.fresh) in
  account self' = Some (mkStruct (JObj [("id", JInt 8); ("name", JStr "bob")]))
  /\ access_token self' = JStr "at-2"
  /\ refresh_token self' = JNull
  /\ header_get "Authorization" (headers (session self')) = None.
Proof.
  cbv zeta.
  rewrite (proj2 (exchange_partial_commit (E := Scripted.env)
                    (Password "bob" "pw") Scripted.fresh
                    Scripted.tokens_without_refresh
                    (JObj [("id", JInt 8); ("name", JStr "bob")])
                    "refresh_token"
                    ltac:(vm_compute; reflexivity)
                    ltac:(vm_compute; reflexivity))
            (JStr "at-2")
            ltac:(vm_compute; reflexivity)
            ltac:(vm_compute; reflexivity)).
  repeat split; vm_compute; reflexivity.
Defined.

Lemma bookmark_write_needs_json_witness :
  fst (@invoke Degraded.env 5%nat
         (AddBookmark 59580629 (mkEnum (AStr "public"))) Scripted.logged_in)
  = inl (BadApiResponse []).
Proof.
  refine (proj2 (bookmark_write_needs_json (E := Degraded.env) 5%nat
                   (AddBookmark 59580629 (mkEnum (AStr "public")))
                   Scripted.logged_in
                   (mkCall "post" (BASE_URL +:+ "/v2/illust/bookmark/add")
                      None None
                      (Some [("illust_id", One (AInt 59580629));
                             ("restrict", One (AStr "public"))]))
                   (mkResponse 200 "") _ _ _ _) _).
  - reflexivity.
  - vm_compute. left. reflexivity.
  - vm_compute. reflexivity.
  - vm_compute. discriminate.
  - reflexivity.
Defined.

Lemma recommended_bookmark_ids_witness :
  Forall (fun c =>
            values_of "bookmark_illust_ids" (query c) = ["59580629,59580630"]
            /\ values_of "min_bookmark_id_for_recent_illust" (query c) = ["7"])
    (new_calls
       (@fetch_illustrations_recommended Scripted.env 5%nat
          (mkEnum (AStr "illust")) false None (Some 7) None
          (Some [59580629; 59580630]) true)
       Scripted.logged_in)
  /\ length (new_calls
               (@fetch_illustrations_recommended Scripted.env 5%nat
                  (mkEnum (AStr "illust")) false None (Some 7) None
                  (Some [59580629; 59580630]) true)
               Scripted.logged_in) = 1%nat.
Proof.
  split; [| vm_compute; reflexivity].
  apply Forall_forall. intros c Hc. apply list_elem_of_In in Hc.
  exact (recommended_bookmark_ids (E := Scripted.env) 5%nat
           (mkEnum (AStr "illust")) false None (Some 7) None
           (Some [59580629; 59580630]) true Scripted.logged_in c Hc).
Defined.

Lemma endpoint_calls_api_witness :
  Forall (fun c =>
            call_url c <> AUTH_URL
            /\ ~ In "client_secret" (map fst (query c))
            /\ ~ In "client_secret" (map fst (form c)))
    (new_calls (@invoke Scripted.env 5%nat FetchTrendingTags)
       Scripted.logged_in)
  /\ length (new_calls (@invoke Scripted.env 5%nat FetchTrendingTags)
               Scripted.logged_in) = 1%nat.
Proof.
  split; [| vm_compute; reflexivity].
  apply Forall_forall. intros c Hc. apply list_elem_of_In in Hc.
  destruct (endpoint_calls_api (E := Scripted.env) 5%nat FetchTrendingTags
              Scripted.logged_in c Hc)
    as (_ & _ & Hurl & _ & Hkeys).
  split; [exact Hurl |]. apply Hkeys. cbn. tauto.
Defined.

Lemma endpoint_missing_key_witness :
  fst (@invoke Degraded.env 5%nat
         (SearchIllustrations "w" (mkEnum (AStr "exact_match_for_tags"))
            (mkEnum (AStr "date_desc")) None None)
         Scripted.logged_in)
  = inl (KeyError "illusts").
Proof.
  refine (endpoint_missing_key (E := Degraded.env) 5%nat _ "illusts"
            Scripted.logged_in
            (mkCall "get" (BASE_URL +:+ "/v1/search/illust")
               (Some [("word", One (AStr "w"));
                      ("search_target", One (AStr "exact_match_for_tags"));
                      ("sort", One (AStr "date_desc"));
                      ("duration", One ANone);
                      ("offset", One ANone);
                      ("filter", One (AStr FILTER))]) None None)
            (mkResponse 200 (Scripted.dumps Degraded.busy))
            [("error", JStr "rate limit")] _ _ _ _ _ _).
  - reflexivity.
  - vm_compute. left. reflexivity.
  - vm_compute. reflexivity.
  - vm_compute. discriminate.
  - vm_compute. reflexivity.
  - reflexivity.
Defined.

Lemma exchange_ignores_status_witness :
  @exchange Degraded.env (Password "alice" "secret") Scripted.fresh
  = @exchange Scripted.env (Password "alice" "secret") Scripted.fresh
  /\ fst (@exchange Degraded.env (Password "alice" "secret") Scripted.fresh)
     = inr tt.
Proof.
  split; [| vm_compute; reflexivity].
  apply (exchange_ignores_status Degraded.env Scripted.env
           (Password "alice" "secret") Scripted.fresh
           (mkResponse 503 (Scripted.dumps Scripted.tokens))
           (mkResponse 200 (Scripted.dumps Scripted.tokens))).
  - vm_compute. reflexivity.
  - vm_compute. reflexivity.
  - vm_compute. reflexivity.
  - intros j. reflexivity.
Defined.


